(** * SIA Review Pulse: the loader, the filter and the aggregates of app.py

    A shallow embedding of [app.py].  A pandas [DataFrame] is a list of row
    records, a column ([Series]) is the list of one field, a missing value
    (NaN, NaT, None) is [None].  The numeric columns are int64 or float64 in
    pandas; a value of such a column is taken as the rational number it
    stands for, on which the comparisons of pandas are exact.  What pandas
    and Python compute in floating point (the mean, the median, the two
    shares) is computed here in binary64, on primitive floats.
    The Streamlit calls of the script are a log of rendered elements, and an
    uncaught Python exception ends the script. *)

From Stdlib Require Import ZArith QArith List String Bool Lia Lqa FinFun.
From Stdlib Require Import PrimFloat Uint63.
From Stdlib Require Import Sorted Permutation.
From Stdlib Require FloatOps SpecFloat.
Import ListNotations.

Local Open Scope Z_scope.

(** ** What the script uses of pandas *)

Module Pandas.

(** A timezone-naive timestamp (dtype datetime64[ns]) by its calendar fields;
    [nanos] counts from midnight.  Timestamps compare field by field. *)
Record Timestamp := mkTimestamp {
  year  : Z;
  month : Z;
  day   : Z;
  nanos : Z
}.

(** A timezone-aware timestamp (dtype datetime64[ns, tz]): the instant as UTC
    wall-clock time, and the zone it is shown in. *)
Record TimestampTZ := mkTimestampTZ {
  utc_wall : Timestamp;
  zone     : string
}.

(** A [datetime.date], what [st.date_input] returns. *)
Record Date := mkDate {
  d_year  : Z;
  d_month : Z;
  d_day   : Z
}.

Definition lex (c1 c2 : comparison) : comparison :=
  match c1 with
  | Eq => c2
  | _ => c1
  end.

Definition ts_compare (a b : Timestamp) : comparison :=
  lex (year a ?= year b)
      (lex (month a ?= month b)
           (lex (day a ?= day b) (nanos a ?= nanos b))).

(** [a >= b], [a <= b] and [a > b] on timestamps. *)
Definition ts_geb (a b : Timestamp) : bool :=
  match ts_compare a b with
  | Lt => false
  | _ => true
  end.

Definition ts_leb (a b : Timestamp) : bool :=
  match ts_compare a b with
  | Gt => false
  | _ => true
  end.

Definition ts_gtb (a b : Timestamp) : bool :=
  match ts_compare a b with
  | Gt => true
  | _ => false
  end.

Definition ts_le (a b : Timestamp) : Prop := ts_compare a b <> Gt.

(** [pd.to_datetime(d)] of a date: midnight of that day. *)
Definition to_datetime_date (d : Date) : Timestamp :=
  mkTimestamp (d_year d) (d_month d) (d_day d) 0.

(** [Series.dt.tz_convert(None)], on one value: to UTC, then the zone marker
    is dropped. *)
Definition tz_convert_None (x : option TimestampTZ) : option Timestamp :=
  match x with
  | None => None
  | Some t => Some (utc_wall t)
  end.

(** [Series.fillna(v)], on one value. *)
Definition fillna {A : Type} (v : A) (x : option A) : option A :=
  match x with
  | None => Some v
  | Some _ => x
  end.

(** [Series.dropna()]. *)
Fixpoint dropna {A : Type} (s : list (option A)) : list A :=
  match s with
  | [] => []
  | None :: s' => dropna s'
  | Some x :: s' => x :: dropna s'
  end.

(** [df.dropna(subset=[col])]: the rows whose value in that column is
    present. *)
Definition dropna_subset {R A : Type} (col : R -> option A) (df : list R)
  : list R :=
  List.filter (fun r => match col r with
                        | Some _ => true
                        | None => false
                        end) df.

(** Elementwise comparisons of a column with a scalar.  A comparison with a
    missing value is [False]. *)
Definition ge_ts (s : list (option Timestamp)) (b : Timestamp) : list bool :=
  map (fun x => match x with
                | Some t => ts_geb t b
                | None => false
                end) s.

Definition le_ts (s : list (option Timestamp)) (b : Timestamp) : list bool :=
  map (fun x => match x with
                | Some t => ts_leb t b
                | None => false
                end) s.

Definition ge_num (s : list (option Q)) (b : Q) : list bool :=
  map (fun x => match x with
                | Some q => Qle_bool b q
                | None => false
                end) s.

Definition le_num (s : list (option Q)) (b : Q) : list bool :=
  map (fun x => match x with
                | Some q => Qle_bool q b
                | None => false
                end) s.

(** [a & b] on boolean columns. *)
Definition mask_and (a b : list bool) : list bool :=
  map (fun p => fst p && snd p) (combine a b).

Infix "&&&" := mask_and (at level 40, left associativity).

(** [Series.between(left, right)], both ends inclusive:
    [(s >= left) & (s <= right)]. *)
Definition between (s : list (option Q)) (left right : Q) : list bool :=
  ge_num s left &&& le_num s right.

(** [Series.isin(values)]. *)
Definition isin {A : Type} (eqb : A -> A -> bool)
  (s : list (option A)) (values : list A) : list bool :=
  map (fun x => match x with
                | Some v => existsb (eqb v) values
                | None => false
                end) s.

(** [df[mask]]: the rows whose mask entry is [True], in order. *)
Fixpoint select {A : Type} (rows : list A) (mask : list bool) : list A :=
  match rows, mask with
  | r :: rows', b :: mask' =>
      if b then r :: select rows' mask' else select rows' mask'
  | _, _ => []
  end.

(** A count as a float; exact below 2^53. *)
Definition float_of_nat (n : nat) : float :=
  PrimFloat.of_uint63 (Uint63.of_Z (Z.of_nat n)).

(** The float nearest to a whole number, ties to even: what the conversion
    of an int64 to float64 gives.  A number of more than 53 bits is cut to
    its 53 leading bits and rounded on the rest. *)
Definition float_of_pos (p : positive) : float :=
  let bits := Z.log2 (Zpos p) + 1 in
  if bits <=? 53 then PrimFloat.of_uint63 (Uint63.of_Z (Zpos p))
  else
    let shift := bits - 53 in
    let m := Z.shiftr (Zpos p) shift in
    let rest := Z.land (Zpos p) (Z.ones shift) in
    let half := Z.shiftl 1 (shift - 1) in
    let up := (half <? rest) || ((half =? rest) && Z.odd m) in
    Z.iter shift (fun f => f * 2)%float
      (PrimFloat.of_uint63 (Uint63.of_Z (if up then m + 1 else m))).

Definition float_of_Z (z : Z) : float :=
  match z with
  | Z0 => 0%float
  | Zpos p => float_of_pos p
  | Zneg p => (- float_of_pos p)%float
  end.

(** The exponent of a power of two. *)
Fixpoint log2_exact (p : positive) : option nat :=
  match p with
  | xH => Some O
  | xO p' => option_map S (log2_exact p')
  | xI _ => None
  end.

(** The float64 that pandas computes with for a value of a numeric column.
    An int64 value is a whole number, and is rounded to the nearest float;
    a float64 value is a whole number or has a power of two as denominator,
    and is its own float. *)
Definition to_float (q : Q) : float :=
  match log2_exact (Qden q) with
  | Some k => Nat.iter k (fun f => f / 2)%float (float_of_Z (Qnum q))
  | None => (float_of_Z (Qnum q) / float_of_pos (Qden q))%float
  end.


(** The sum of a float64 array as numpy computes it ([np.add.reduce] on a
    contiguous array): fewer than 8 elements are added from left to right;
    up to 128 elements are added in 8 interleaved partial sums, which are
    then added as a tree, and the elements after the last full group of 8
    are added one by one; a longer array is cut in two at a multiple of 8
    near its middle, and the sums of the two parts are added.  An int64
    column is converted to float64 through a buffer of 8192 elements and
    summed buffer by buffer; that is not modelled for longer columns. *)
Definition add8 (r x : list float) : list float :=
  map (fun p => fst p + snd p)%float (combine r x).

Fixpoint unrolled (r l : list float) (groups : nat)
  : list float * list float :=
  match groups with
  | O => (r, l)
  | S g => unrolled (add8 r (firstn 8 l)) (skipn 8 l) g
  end.

Definition tree8 (r : list float) : float :=
  match r with
  | [r0; r1; r2; r3; r4; r5; r6; r7] =>
      ((r0 + r1) + (r2 + r3)) + ((r4 + r5) + (r6 + r7))
  | _ => 0
  end%float.

Definition block_sum (l : list float) : float :=
  let (r, rest) :=
    unrolled (firstn 8 l) (skipn 8 l) (List.length l / 8 - 1) in
  fold_left PrimFloat.add rest (tree8 r).

Fixpoint pairwise_sum (fuel : nat) (l : list float) : float :=
  let n := List.length l in
  if (n <? 8)%nat then fold_left PrimFloat.add l 0%float
  else if (n <=? 128)%nat then block_sum l
  else
    match fuel with
    | O => 0%float
    | S fuel' =>
        let n2 := (n / 2 - (n / 2) mod 8)%nat in
        (pairwise_sum fuel' (firstn n2 l)
         + pairwise_sum fuel' (skipn n2 l))%float
    end.

Definition float_sum (l : list float) : float :=
  pairwise_sum (List.length l) l.

(** [Series.count()]. *)
Definition count_notna {A : Type} (s : list (option A)) : nat :=
  (List.length s - List.length (List.filter (fun x => match x with
                                             | None => true
                                             | Some _ => false
                                             end) s))%nat.

(** [Series.mean()]: the missing values are replaced by 0, the column is
    summed in float64, and the sum is divided by the number of values that
    are present; NaN when there is none. *)
Definition mean (s : list (option Q)) : option float :=
  let values := map (fun x => match x with
                              | Some q => to_float q
                              | None => 0%float
                              end) s in
  match count_notna s with
  | O => None
  | n => Some (float_sum values / float_of_nat n)%float
  end.

(** [groupby(col, dropna=False).size()]: one entry per distinct value of the
    column, the missing value included, in ascending order of the value with
    the missing value last, and the number of rows that carry it. *)
Definition key_eqb (a b : option Q) : bool :=
  match a, b with
  | None, None => true
  | Some x, Some y => Qeq_bool x y
  | _, _ => false
  end.

Definition key_leb (a b : option Q) : bool :=
  match a, b with
  | _, None => true
  | None, Some _ => false
  | Some x, Some y => Qle_bool x y
  end.

Fixpoint insert_key (k : option Q) (ks : list (option Q)) : list (option Q) :=
  match ks with
  | [] => [k]
  | h :: t =>
      if key_eqb k h then ks
      else if key_leb k h then k :: ks
      else h :: insert_key k t
  end.

Definition group_keys (s : list (option Q)) : list (option Q) :=
  fold_left (fun ks k => insert_key k ks) s [].

Definition group_size (s : list (option Q)) (k : option Q) : nat :=
  List.length (List.filter (key_eqb k) s).

Definition groupby_size (s : list (option Q)) : list (option Q * nat) :=
  map (fun k => (k, group_size s k)) (group_keys s).

(** [sort_values(col)] on the grouped frame: stable, ascending, missing
    values last. *)
Fixpoint insert_sorted (x : option Q * nat) (l : list (option Q * nat))
  : list (option Q * nat) :=
  match l with
  | [] => [x]
  | h :: t =>
      if key_leb (fst h) (fst x) then h :: insert_sorted x t else x :: l
  end.

Definition sort_values (l : list (option Q * nat)) : list (option Q * nat) :=
  fold_left (fun acc x => insert_sorted x acc) l [].

(** [resample("M").size()] over a datetime index.  A month is numbered
    [12 * year + (month - 1)]; pandas labels it by its last day.  The bins are
    all the months from the one of the earliest index value to the one of the
    latest, each with the number of index values that fall in it: a month of
    that span without a value is a bin of size 0.  An empty index gives an
    empty result. *)
Definition month_index (t : Timestamp) : Z := 12 * year t + (month t - 1).

Definition month_label (m : Z) : Z * Z := (m / 12, m mod 12 + 1).

Definition months_between (lo hi : Z) : list Z :=
  map (fun i => lo + Z.of_nat i) (seq 0 (Z.to_nat (hi - lo + 1))).

Definition bin_size (ms : list Z) (m : Z) : nat :=
  List.length (List.filter (Z.eqb m) ms).

Definition resample_M_size (index : list Timestamp) : list (Z * nat) :=
  match map month_index index with
  | [] => []
  | m :: ms =>
      let first := fold_right Z.min m ms in
      let last := fold_right Z.max m ms in
      map (fun k => (k, bin_size (m :: ms) k)) (months_between first last)
  end.

(** A cell of a column that [read_csv] could not type as a date: absent, a
    number, or text. *)
Inductive Cell :=
| CNaN
| CNum (q : Q)
| CStr (s : string).

(** [pd.to_numeric(s, errors="coerce")] on one cell: text that is no number
    becomes NaN.  [parse] reads a number. *)
Definition to_numeric (parse : string -> option Q) (c : Cell) : option Q :=
  match c with
  | CNaN => None
  | CNum q => Some q
  | CStr s => parse s
  end.

(** [pd.to_datetime(s, errors="coerce", utc=True)] on one cell: the result is
    timezone-aware, in UTC; text that is no date becomes NaT.  [parse] reads a
    date and gives its instant as UTC wall-clock time (an input with an
    offset is converted, one without is taken as UTC). *)
Definition to_datetime_utc (parse : string -> option Timestamp)
  (c : option string) : option TimestampTZ :=
  match c with
  | None => None
  | Some s =>
      match parse s with
      | None => None
      | Some t => Some (mkTimestampTZ t "UTC")
      end
  end.

(** [Timestamp.date()]. *)
Definition date_of (t : Timestamp) : Date :=
  mkDate (year t) (month t) (day t).

(** [d1 <= d2] on dates. *)
Definition date_leb (d1 d2 : Date) : bool :=
  ts_leb (to_datetime_date d1) (to_datetime_date d2).

(** [Series.min()] and [Series.max()] of a datetime column: missing values
    are skipped, and the result is NaT when no value is present. *)
Definition ts_min2 (a b : Timestamp) : Timestamp :=
  if ts_leb a b then a else b.

Definition ts_max2 (a b : Timestamp) : Timestamp :=
  if ts_leb a b then b else a.

Definition min_ts (s : list (option Timestamp)) : option Timestamp :=
  match dropna s with
  | [] => None
  | t :: ts => Some (fold_left ts_min2 ts t)
  end.

Definition max_ts (s : list (option Timestamp)) : option Timestamp :=
  match dropna s with
  | [] => None
  | t :: ts => Some (fold_left ts_max2 ts t)
  end.

(** The same on a numeric column, NaN when no value is present. *)
Definition num_min2 (a b : Q) : Q := if Qle_bool a b then a else b.

Definition num_max2 (a b : Q) : Q := if Qle_bool a b then b else a.

Definition min_num (s : list (option Q)) : option Q :=
  match dropna s with
  | [] => None
  | q :: qs => Some (fold_left num_min2 qs q)
  end.

Definition max_num (s : list (option Q)) : option Q :=
  match dropna s with
  | [] => None
  | q :: qs => Some (fold_left num_max2 qs q)
  end.

(** [int(x)] of a float that is a number: the fraction is cut off, toward
    zero. *)
Definition trunc (q : Q) : Z := Z.quot (Qnum q) (Zpos (Qden q)).

(** [t - pd.DateOffset(months=12)]: the same month and time of day one year
    earlier, the day cut down to the length of that month (29 February
    becomes 28 February). *)
Definition is_leap (y : Z) : bool :=
  ((y mod 4 =? 0) && negb (y mod 100 =? 0)) || (y mod 400 =? 0).

Definition days_in_month (y m : Z) : Z :=
  if m =? 2 then (if is_leap y then 29 else 28)
  else if (m =? 4) || (m =? 6) || (m =? 9) || (m =? 11) then 30
  else 31.

Definition minus_12_months (t : Timestamp) : Timestamp :=
  mkTimestamp (year t - 1) (month t)
    (Z.min (day t) (days_in_month (year t - 1) (month t))) (nanos t).

(** [Series.unique()]: the distinct values, in the order of their first
    occurrence. *)
Fixpoint unique (l : list string) : list string :=
  match l with
  | [] => []
  | x :: t => x :: List.filter (fun y => negb (String.eqb x y)) (unique t)
  end.

(** [sorted(l)] on strings.  Python orders strings by code point, which is
    the order of their UTF-8 bytes. *)
Fixpoint insert_str (x : string) (l : list string) : list string :=
  match l with
  | [] => [x]
  | h :: t => if String.leb x h then x :: l else h :: insert_str x t
  end.

Definition sorted (l : list string) : list string :=
  fold_right insert_str [] l.

(** [Series.median()]: the values that are present are converted to
    float64; the result is the middle one of them in ascending order, the
    mean of the two middle ones when their number is even, NaN when there is
    none. *)
Fixpoint insert_float (x : float) (l : list float) : list float :=
  match l with
  | [] => [x]
  | h :: t => if PrimFloat.leb x h then x :: l else h :: insert_float x t
  end.

Definition sort_float (l : list float) : list float :=
  fold_right insert_float [] l.

Definition median (s : list (option Q)) : option float :=
  let v := sort_float (map to_float (dropna s)) in
  let n := List.length v in
  match n with
  | O => None
  | _ =>
      if Nat.even n
      then Some ((nth (n / 2 - 1) v 0 + nth (n / 2) v 0) / 2)%float
      else Some (nth (n / 2) v 0%float)
  end.

(** [sep.join(l)]. *)
Definition join (sep : string) (l : list string) : string :=
  String.concat sep l.

End Pandas.

(** ** The script *)

Module App.
Import Pandas.

Local Open Scope string_scope.

(** A row of the CSV file as [pd.read_csv] gives it. *)
Record RawReview := mkRawReview {
  raw_published_date     : option string;
  raw_rating             : Cell;
  raw_helpful_votes      : Cell;
  raw_published_platform : option string;
  raw_type               : option string;
  raw_title              : option string;
  raw_text               : option string
}.

(** A row of the frame the script works on. *)
Record Review := mkReview {
  published_date     : option Timestamp;
  rating             : option Q;
  helpful_votes      : option Q;
  published_platform : option string;
  type               : option string;
  title              : option string;
  text               : option string
}.

(** An exception, by the name of its class. *)
Definition Exception := string.

(** What [pd.read_csv] finds at the path: nothing, a file it cannot parse
    (with the exception pandas raises on it: [ParserError], [EmptyDataError],
    [UnicodeDecodeError]), or a table. *)
Inductive File :=
| Missing
| Unreadable (e : Exception)
| Table (rows : list RawReview).

(** What the page shows, in the order of the calls.  The platform chart, the
    median card, the sample table and the two keyword images are left out. *)
Inductive MetricValue :=
| NotAvailable
| Count (n : nat)
| Number (x : option float).

Inductive Element :=
| Title (s : string)
| Markdown (s : string)
| SidebarHeader (s : string)
| SidebarCaption (s : string)
| SummaryEmpty
| Summary (total : nat) (avg : option float) (positive negative : float)
| Metric (label : string) (value : MetricValue)
| RatingChart (counts : list (option Q * nat))
| TrendChart (counts : list (Z * nat)).

(** A run of script code: what was rendered, and a value or the exception
    that ended the run. *)
Definition Script (A : Type) : Type := list Element * (Exception + A).

Definition ret {A : Type} (x : A) : Script A := ([], inr x).

Definition raise {A : Type} (e : Exception) : Script A := ([], inl e).

Definition render (e : Element) : Script unit := ([e], inr tt).

Definition bind {A B : Type} (m : Script A) (k : A -> Script B) : Script B :=
  match m with
  | (out, inl e) => (out, inl e)
  | (out, inr x) => let (out', r) := k x in ((out ++ out')%list, r)
  end.

Notation "x <- m ;; k" := (bind m (fun x => k))
  (at level 61, m at next level, right associativity).
Notation "m ;;; k" := (bind m (fun _ => k))
  (at level 61, right associativity).

Definition rendered {A : Type} (m : Script A) : list Element := fst m.
Definition outcome {A : Type} (m : Script A) : Exception + A := snd m.

(** The values of the sidebar widgets.  Their defaults and bounds (lines
    43-46, 59, 65 and 71) are not modelled. *)
Record Inputs := mkInputs {
  start_date_input   : Date;
  end_date_input     : Date;
  selected_platforms : list string;
  selected_types     : list string;
  rating_range       : Z * Z
}.

Section Loader.

(** The readers of dates and numbers inside [pd.to_datetime] and
    [pd.to_numeric]. *)
Variable parse_datetime : string -> option Timestamp.
Variable parse_number : string -> option Q.

(** [pd.read_csv(path)]. *)
Definition read_csv (f : File) : Script (list RawReview) :=
  match f with
  | Missing => raise "FileNotFoundError"
  | Unreadable e => raise e
  | Table rows => ret rows
  end.

(** Lines 25-32, on one row. *)
Definition normalize (r : RawReview) : Review :=
  {| published_date :=
       tz_convert_None (to_datetime_utc parse_datetime (raw_published_date r));
     rating := to_numeric parse_number (raw_rating r);
     helpful_votes :=
       fillna 0%Q (to_numeric parse_number (raw_helpful_votes r));
     published_platform := fillna "Unknown" (raw_published_platform r);
     type := fillna "Unknown" (raw_type r);
     title := raw_title r;
     text := raw_text r |}.

Definition load_reviews (path : File) : Script (list Review) :=
  df <- read_csv path ;;
  ret (map normalize df).

End Loader.

(** Lines 80-83: the dates are swapped when the start is after the end. *)
Definition swap_dates (start_date end_date : Timestamp)
  : Script (Timestamp * Timestamp) :=
  if ts_gtb start_date end_date
  then render (SidebarCaption "Swapped dates so Start is before End.") ;;;
       ret (end_date, start_date)
  else ret (start_date, end_date).

(** Lines 84-90. *)
Definition filtered (data : list Review) (start_date end_date : Timestamp)
  (selected_platforms selected_types : list string) (rating_range : Z * Z)
  : list Review :=
  select data
    (ge_ts (map published_date data) start_date
     &&& le_ts (map published_date data) end_date
     &&& isin String.eqb (map published_platform data) selected_platforms
     &&& isin String.eqb (map type data) selected_types
     &&& between (map rating data)
           (inject_Z (fst rating_range)) (inject_Z (snd rating_range))).

(** Lines 79-90: the dates of the widgets, swapped if need be, and the
    filter. *)
Definition filter_reviews (data : list Review) (inp : Inputs)
  : Script (list Review) :=
  range <- swap_dates (to_datetime_date (start_date_input inp))
                      (to_datetime_date (end_date_input inp)) ;;
  ret (filtered data (fst range) (snd range)
         (selected_platforms inp) (selected_types inp) (rating_range inp)).

(** Lines 92-104. *)
Definition total_reviews (filtered : list Review) : nat := List.length filtered.

Definition avg_rating (filtered : list Review) : option float :=
  mean (map rating filtered).

Definition rating_count (filtered : list Review) (values : list Q) : nat :=
  List.length (select filtered (isin Qeq_bool (map rating filtered) values)).

Definition share (filtered : list Review) (values : list Q) : float :=
  match total_reviews filtered with
  | O => 0
  | n => float_of_nat (rating_count filtered values) / float_of_nat n * 100
  end%float.

Definition positive_share (filtered : list Review) : float :=
  share filtered [4%Q; 5%Q].

Definition negative_share (filtered : list Review) : float :=
  share filtered [1%Q; 2%Q].

(** Lines 106-113 and 131-132. *)
Definition summary (filtered : list Review) : Element :=
  match total_reviews filtered with
  | O => SummaryEmpty
  | n => Summary n (avg_rating filtered)
           (positive_share filtered) (negative_share filtered)
  end.

Definition avg_metric (filtered : list Review) : MetricValue :=
  match total_reviews filtered with
  | O => NotAvailable
  | _ => Number (avg_rating filtered)
  end.

(** Lines 138-143. *)
Definition rating_counts (filtered : list Review) : list (option Q * nat) :=
  sort_values (groupby_size (map rating filtered)).

(** Lines 175-181. *)
Definition trend (filtered : list Review) : list (Z * nat) :=
  resample_M_size
    (dropna (map published_date (dropna_subset published_date filtered))).

(** Lines 36-195. *)
Definition app (parse_datetime : string -> option Timestamp)
  (parse_number : string -> option Q) (path : File) (inp : Inputs)
  : Script unit :=
  render (Title "SIA Review Pulse") ;;;
  render (Markdown
    "Explore Singapore Airlines reviews with filters, summary stats, and trends.") ;;;
  data <- load_reviews parse_datetime parse_number path ;;
  render (SidebarHeader "Filters") ;;;
  filtered <- filter_reviews data inp ;;
  render (summary filtered) ;;;
  render (Metric "Reviews" (Count (total_reviews filtered))) ;;;
  render (Metric "Average rating" (avg_metric filtered)) ;;;
  render (RatingChart (rating_counts filtered)) ;;;
  render (TrendChart (trend filtered)).

(** ** The filter, as the specification words it *)

(** The row's date is present and lies in the range, both ends included. *)
Definition date_in_range (start_date end_date : Timestamp) (r : Review)
  : Prop :=
  exists t, published_date r = Some t /\ ts_le start_date t /\ ts_le t end_date.

(** The row's platform, and its type, is one of the selected ones. *)
Definition platform_selected (selected : list string) (r : Review) : Prop :=
  exists p, published_platform r = Some p /\ In p selected.

Definition type_selected (selected : list string) (r : Review) : Prop :=
  exists p, type r = Some p /\ In p selected.

(** The row's rating is present and lies in the range, both ends included. *)
Definition rating_in_range (range : Z * Z) (r : Review) : Prop :=
  exists q, rating r = Some q /\
            (inject_Z (fst range) <= q)%Q /\ (q <= inject_Z (snd range))%Q.

Definition satisfies (start_date end_date : Timestamp)
  (platforms types : list string) (range : Z * Z) (r : Review) : Prop :=
  date_in_range start_date end_date r /\
  platform_selected platforms r /\
  type_selected types r /\
  rating_in_range range r.

(** The same test on one row, as a boolean. *)
Definition keeps (start_date end_date : Timestamp)
  (platforms types : list string) (range : Z * Z) (r : Review) : bool :=
  match published_date r with
  | Some t => ts_geb t start_date
  | None => false
  end
  && match published_date r with
     | Some t => ts_leb t end_date
     | None => false
     end
  && match published_platform r with
     | Some p => existsb (String.eqb p) platforms
     | None => false
     end
  && match type r with
     | Some p => existsb (String.eqb p) types
     | None => false
     end
  && match rating r with
     | Some q => Qle_bool (inject_Z (fst range)) q
     | None => false
     end
  && match rating r with
     | Some q => Qle_bool q (inject_Z (snd range))
     | None => false
     end.

(** The months of the rows that have a date, one per such row. *)
Definition row_months (sub : list Review) : list Z :=
  map month_index (dropna (map published_date sub)).







(** The widget values with the two dates exchanged. *)
Definition exchanged (inp : Inputs) : Inputs :=
  {| start_date_input := end_date_input inp;
     end_date_input := start_date_input inp;
     selected_platforms := selected_platforms inp;
     selected_types := selected_types inp;
     rating_range := rating_range inp |}.

(** ** The rest of the script *)

(** Lines 43 and 44: NaT when no row has a date. *)
Definition min_date (data : list Review) : option Timestamp :=
  min_ts (map published_date data).

Definition max_date (data : list Review) : option Timestamp :=
  max_ts (map published_date data).

(** [max(a, b)] of Python: [b] when [b > a], else [a]. *)
Definition py_max (a b : Timestamp) : Timestamp :=
  if ts_gtb b a then b else a.

(** [int(x)]: NaN has no integer. *)
Definition py_int (x : option Q) : Script Z :=
  match x with
  | Some q => ret (trunc q)
  | None => raise "ValueError"
  end.

(** [st.date_input(value=v, min_value=lo, max_value=hi)] when the page is
    first loaded: the widget gives its default, and refuses one outside its
    bounds. *)
Definition date_input (value min_value max_value : Date) : Script Date :=
  if date_leb min_value value && date_leb value max_value
  then ret value
  else raise "StreamlitAPIException".

(** [st.slider(min_value=lo, max_value=hi, value=v)] when the page is
    first loaded: the widget gives its default, and refuses bounds that
    leave no range.  The script never calls it with [lo] above [hi]. *)
Definition slider (min_value max_value : Z) (value : Z * Z) : Script (Z * Z) :=
  if (min_value <? max_value)%Z
  then ret value
  else raise "StreamlitInvalidMinMaxError".

(** Lines 45-77 when the page is first loaded, for data that has a date:
    [min_date] and [max_date] are the timestamps of lines 43 and 44, and
    every widget gives its default.  What the date widgets do with NaT, and
    the checks of [st.multiselect] on its arguments, are not modelled. *)
Definition default_inputs (data : list Review) (min_date max_date : Timestamp)
  : Script Inputs :=
  let default_start := minus_12_months max_date in
  let start_default := date_of (py_max min_date default_start) in
  start_date_input <-
    date_input start_default (date_of min_date) (date_of max_date) ;;
  end_date_input <-
    date_input (date_of max_date) (date_of min_date) (date_of max_date) ;;
  let platforms := sorted (unique (dropna (map published_platform data))) in
  let review_types := sorted (unique (dropna (map type data))) in
  rating_min <- py_int (min_num (map rating data)) ;;
  rating_max <- py_int (max_num (map rating data)) ;;
  rating_range <- slider rating_min rating_max (rating_min, rating_max) ;;
  ret {| start_date_input := start_date_input;
         end_date_input := end_date_input;
         selected_platforms := platforms;
         selected_types := review_types;
         rating_range := rating_range |}.

(** Lines 94 and 133. *)
Definition median_helpful (filtered : list Review) : option float :=
  median (map helpful_votes filtered).

Definition median_metric (filtered : list Review) : MetricValue :=
  match total_reviews filtered with
  | O => NotAvailable
  | _ => Number (median_helpful filtered)
  end.

(** Lines 207-209 and 232-234: the texts of the rows with one of the given
    ratings, joined by a blank. *)
Definition keyword_text (filtered : list Review) (values : list Q) : string :=
  join " "
    (dropna (map text
       (select filtered (isin Qeq_bool (map rating filtered) values)))).

Definition positive_text (filtered : list Review) : string :=
  keyword_text filtered [4%Q; 5%Q].

Definition negative_text (filtered : list Review) : string :=
  keyword_text filtered [1%Q; 2%Q].

(** Lines 228 and 237: [t or "No data"], what the word cloud is made
    from. *)
Definition wordcloud_input (t : string) : string :=
  match t with
  | EmptyString => "No data"
  | _ => t
  end.

(** [t] occurs in [s]. *)
Definition occurs_in (t s : string) : Prop :=
  exists before after, s = before ++ t ++ after.

(** One rating comes before another in the histogram: a smaller number
    before a larger one, and any number before the missing rating. *)
Definition key_lt (a b : option Q) : Prop :=
  match a, b with
  | Some x, Some y => (x < y)%Q
  | Some _, None => True
  | None, _ => False
  end.

(** The sum of the counts of a histogram. *)
Definition total_count {K : Type} (h : list (K * nat)) : nat :=
  fold_right (fun e acc => (snd e + acc)%nat) O h.

End App.

(** ** Sample data *)

Module Examples.
Import Pandas App.

Local Open Scope string_scope.

Definition review (d : Timestamp) (r : option Q) (platform : string)
  : Review :=
  {| published_date := Some d;
     rating := r;
     helpful_votes := Some 0%Q;
     published_platform := Some platform;
     type := Some "review";
     title := None;
     text := None |}.

Definition jan_1 : Timestamp := mkTimestamp 2024 1 1 0.
Definition dec_31 : Timestamp := mkTimestamp 2024 12 31 0.

(** Three rows with ratings 5, 1 and none, on the platforms Web, App and
    Web, all dated in 2024. *)
Definition row_5_web : Review :=
  review (mkTimestamp 2024 1 10 0) (Some 5%Q) "Web".
Definition row_1_app : Review :=
  review (mkTimestamp 2024 2 11 0) (Some 1%Q) "App".
Definition row_none_web : Review :=
  review (mkTimestamp 2024 3 12 0) None "Web".

Definition scenario_data : list Review :=
  [row_5_web; row_1_app; row_none_web].

(** The scenario filtered over the whole of 2024, all platforms and types,
    ratings 1 to 5. *)
Definition scenario_sub : list Review :=
  filtered scenario_data jan_1 dec_31 ["App"; "Web"] ["review"] (1, 5).

(** Two rows, one in January and one in March 2024, and the same filter. *)
Definition gap_data : list Review :=
  [ review (mkTimestamp 2024 1 15 0) (Some 4%Q) "Web";
    review (mkTimestamp 2024 3 2 0) (Some 2%Q) "App" ].

Definition gap_sub : list Review :=
  filtered gap_data jan_1 dec_31 ["App"; "Web"] ["review"] (1, 5).

Definition february_2024 : Z := 12 * 2024 + (2 - 1).



(** Widget values with the start date after the end date. *)
Definition late_start : Inputs :=
  {| start_date_input := mkDate 2024 3 1;
     end_date_input := mkDate 2024 1 1;
     selected_platforms := ["App"; "Web"];
     selected_types := ["review"];
     rating_range := (1, 5) |}.

(** Readers that recognise nothing. *)
Definition no_date (_ : string) : option Timestamp := None.
Definition no_number (_ : string) : option Q := None.

(** A subset with no row, under widget values that select no platform. *)
Definition nothing_selected : Inputs :=
  {| start_date_input := mkDate 2024 1 1;
     end_date_input := mkDate 2024 12 31;
     selected_platforms := [];
     selected_types := ["review"];
     rating_range := (1, 5) |}.

(** A row published on 31 December 2024 at noon. *)
Definition row_noon : Review :=
  review (mkTimestamp 2024 12 31 43200000000000) (Some 4%Q) "Web".

(** A raw row whose date cell is no date. *)
Definition raw_bad_date : RawReview :=
  {| raw_published_date := Some "soon";
     raw_rating := CNum 4;
     raw_helpful_votes := CNaN;
     raw_published_platform := None;
     raw_type := None;
     raw_title := None;
     raw_text := Some "fine" |}.

(** A row rated 5 with a text. *)
Definition row_praise : Review :=
  {| published_date := Some (mkTimestamp 2024 4 4 0);
     rating := Some 5%Q;
     helpful_votes := Some 2%Q;
     published_platform := Some "Web";
     type := Some "review";
     title := None;
     text := Some "great crew" |}.

(** The defaults of the widgets on [scenario_data]. *)
Definition scenario_defaults : Inputs :=
  {| start_date_input := mkDate 2024 1 10;
     end_date_input := mkDate 2024 3 12;
     selected_platforms := ["App"; "Web"];
     selected_types := ["review"];
     rating_range := (1, 5) |}.



(** Two rows of 2024, both rated 5. *)
Definition fives_data : list Review :=
  [ review (mkTimestamp 2024 8 1 0) (Some 5%Q) "Web";
    review (mkTimestamp 2024 8 2 0) (Some 5%Q) "App" ].


(** Two rows of 2024, the later one published at noon. *)
Definition noon_data : list Review :=
  [ review (mkTimestamp 2024 6 1 0) (Some 3%Q) "Web"; row_noon ].

(** The defaults of the widgets on [noon_data]. *)
Definition noon_defaults : Inputs :=
  {| start_date_input := mkDate 2024 6 1;
     end_date_input := mkDate 2024 12 31;
     selected_platforms := ["Web"];
     selected_types := ["review"];
     rating_range := (3, 4) |}.

End Examples.

(** ** Facts about the pandas operations *)

Import Pandas App Examples.

Lemma lex_opp (c1 c2 : comparison) :
  CompOpp (lex c1 c2) = lex (CompOpp c1) (CompOpp c2).
Proof. destruct c1; reflexivity. Qed.

Lemma ts_compare_antisym (a b : Timestamp) :
  ts_compare b a = CompOpp (ts_compare a b).
Proof.
  unfold ts_compare.
  rewrite !lex_opp, <- !Z.compare_antisym.
  reflexivity.
Qed.

Lemma ts_geb_le (a b : Timestamp) : ts_geb a b = true <-> ts_le b a.
Proof.
  unfold ts_geb, ts_le.
  rewrite (ts_compare_antisym a b).
  destruct (ts_compare a b); simpl; split; congruence.
Qed.

Lemma ts_leb_le (a b : Timestamp) : ts_leb a b = true <-> ts_le a b.
Proof.
  unfold ts_leb, ts_le.
  destruct (ts_compare a b); split; congruence.
Qed.

Lemma ts_gtb_le (a b : Timestamp) : ts_gtb a b = true -> ts_le b a.
Proof.
  unfold ts_gtb, ts_le.
  rewrite (ts_compare_antisym a b).
  destruct (ts_compare a b); simpl; congruence.
Qed.

Lemma ts_gtb_asym (a b : Timestamp) : ts_gtb a b = true -> ts_gtb b a = false.
Proof.
  unfold ts_gtb.
  rewrite (ts_compare_antisym a b).
  destruct (ts_compare a b); simpl; congruence.
Qed.

Lemma select_map {A : Type} (f : A -> bool) (rows : list A) :
  select rows (map f rows) = List.filter f rows.
Proof.
  induction rows as [|r rows IH]; simpl.
  - reflexivity.
  - rewrite IH. reflexivity.
Qed.

Lemma mask_and_map {A : Type} (f g : A -> bool) (rows : list A) :
  map f rows &&& map g rows = map (fun r => f r && g r) rows.
Proof.
  unfold mask_and.
  induction rows as [|r rows IH]; simpl.
  - reflexivity.
  - rewrite IH. reflexivity.
Qed.

Lemma existsb_eqb_In (p : string) (l : list string) :
  existsb (String.eqb p) l = true <-> In p l.
Proof.
  rewrite existsb_exists. split.
  - intros [x [Hin Heq]]. apply String.eqb_eq in Heq. subst. exact Hin.
  - intros Hin. exists p. split; [exact Hin | apply String.eqb_refl].
Qed.

Lemma insert_key_In (k x : option Q) (ks : list (option Q)) :
  In k (insert_key x ks) -> k = x \/ In k ks.
Proof.
  induction ks as [|h t IH]; simpl.
  - intros [H|[]]; auto.
  - destruct (key_eqb x h); [auto|].
    destruct (key_leb x h); simpl.
    + intros [H|H]; auto.
    + intros [H|H]; auto. destruct (IH H); auto.
Qed.

Lemma group_keys_In (k : option Q) (s : list (option Q)) :
  In k (group_keys s) -> In k s.
Proof.
  unfold group_keys.
  assert (G : forall acc, In k (fold_left (fun ks x => insert_key x ks) s acc)
                          -> In k s \/ In k acc).
  { induction s as [|x s IH]; simpl; intros acc H.
    - auto.
    - destruct (IH _ H) as [H1|H1]; auto.
      destruct (insert_key_In _ _ _ H1) as [->|H2]; auto. }
  intros H. destruct (G [] H) as [H1|[]]. exact H1.
Qed.




(** The fuel of [pairwise_sum] is enough as soon as it exceeds the length
    of the list by no less than -128: the result is then the same for any
    larger fuel. *)
Lemma pairwise_sum_fuel (fuel fuel' : nat) (l : list float) :
  (List.length l <= 128 + fuel)%nat -> (List.length l <= 128 + fuel')%nat ->
  pairwise_sum fuel l = pairwise_sum fuel' l.
Proof.
  revert fuel' l.
  induction fuel as [|fuel IH]; intros fuel' l H H'.
  - destruct fuel'; simpl;
      destruct (List.length l <? 8)%nat; try reflexivity;
      destruct (Nat.leb_spec (List.length l) 128); try reflexivity; lia.
  - destruct fuel' as [|fuel'].
    + simpl. destruct (List.length l <? 8)%nat; try reflexivity.
      destruct (Nat.leb_spec (List.length l) 128); try reflexivity. lia.
    + cbn [pairwise_sum].
      destruct (List.length l <? 8)%nat; try reflexivity.
      destruct (Nat.leb_spec (List.length l) 128) as [|Hbig];
        try reflexivity.
      pose proof (Nat.div_mod_eq (List.length l) 2) as D2.
      pose proof (Nat.mod_upper_bound (List.length l) 2 ltac:(lia)) as M2.
      pose proof (Nat.mod_upper_bound (List.length l / 2) 8 ltac:(lia)) as M8.
      rewrite (IH fuel' (firstn _ l)), (IH fuel' (skipn _ l));
        rewrite ?length_firstn, ?length_skipn; try lia.
      reflexivity.
Qed.


Lemma dropna_all_present {R A : Type} (col : R -> option A) (rows : list R) :
  (forall r, In r rows -> col r <> None) ->
  List.length (dropna (map col rows)) = List.length rows.
Proof.
  induction rows as [|r rows IH]; simpl; intros H.
  - reflexivity.
  - destruct (col r) eqn:E.
    + simpl. rewrite IH; auto.
    + exfalso. apply (H r); auto.
Qed.

Lemma dropna_subset_all_present {R A : Type} (col : R -> option A)
  (rows : list R) :
  (forall r, In r rows -> col r <> None) -> dropna_subset col rows = rows.
Proof.
  unfold dropna_subset.
  induction rows as [|r rows IH]; simpl; intros H.
  - reflexivity.
  - destruct (col r) eqn:E.
    + rewrite IH; auto.
    + exfalso. apply (H r); auto.
Qed.


(** ** The claims *)

Section Filtered.

Variable data : list Review.
Variables start_date end_date : Timestamp.
Variables platforms types : list string.
Variable range : Z * Z.

Local Abbreviation sub := (filtered data start_date end_date platforms types range).
Local Abbreviation keep := (keeps start_date end_date platforms types range).

(** The mask of lines 85-89 is the row test [keeps], row by row. *)
Lemma filtered_filter : sub = List.filter keep data.
Proof.
  unfold filtered, between, ge_ts, le_ts, ge_num, le_num, isin.
  rewrite !map_map, !mask_and_map.
  rewrite select_map.
  apply filter_ext. intros r. unfold keeps.
  rewrite !andb_assoc. reflexivity.
Qed.

Lemma keeps_satisfies (r : Review) :
  keep r = true <-> satisfies start_date end_date platforms types range r.
Proof.
  unfold keeps, satisfies, date_in_range, platform_selected, type_selected,
    rating_in_range.
  rewrite !andb_true_iff.
  destruct (published_date r) as [t|], (published_platform r) as [p|],
    (type r) as [y|], (rating r) as [q|];
    try (split;
         [ intros [[[[[? ?] ?] ?] ?] ?]; discriminate
         | intros [[? [? ?]] [[? [? ?]] [[? [? ?]] [? [? ?]]]]]; discriminate ]).
  rewrite ts_geb_le, ts_leb_le, !existsb_eqb_In, !Qle_bool_iff.
  split.
  - intros [[[[[H1 H2] H3] H4] H5] H6].
    repeat split; eexists; (split; [reflexivity | auto]).
  - intros [[t' [E1 [H1 H2]]] [[p' [E2 H3]] [[y' [E3 H4]] [q' [E4 [H5 H6]]]]]].
    injection E1 as <-. injection E2 as <-. injection E3 as <-.
    injection E4 as <-. auto 10.
Qed.

Lemma keeps_no_rating (r : Review) : rating r = None -> keep r = false.
Proof.
  intros H. unfold keeps. rewrite H. apply andb_false_r.
Qed.

Lemma filtered_In (r : Review) :
  In r sub <->
  In r data /\ satisfies start_date end_date platforms types range r.
Proof.
  rewrite filtered_filter, filter_In, keeps_satisfies. reflexivity.
Qed.

Lemma filtered_rating_present (r : Review) : In r sub -> rating r <> None.
Proof.
  rewrite filtered_In.
  intros [_ [_ [_ [_ [q [E _]]]]]]. congruence.
Qed.

Lemma filtered_date_present (r : Review) :
  In r sub -> published_date r <> None.
Proof.
  rewrite filtered_In.
  intros [_ [[t [E _]] _]]. congruence.
Qed.

(** C3.  The filter returns exactly the rows of the data, in their order and
    as often as they occur, that pass all four tests together: date in the
    inclusive range, platform selected, type selected, rating in the
    inclusive range.  A row without a rating is never returned. *)
Theorem filter_engine_conjunction :
  sub = List.filter keep data /\
  (forall r, keep r = true <->
             date_in_range start_date end_date r /\
             platform_selected platforms r /\
             type_selected types r /\
             rating_in_range range r) /\
  (forall r, In r sub <->
             In r data /\
             date_in_range start_date end_date r /\
             platform_selected platforms r /\
             type_selected types r /\
             rating_in_range range r) /\
  (forall r, rating r = None -> ~ In r sub).
Proof.
  split; [apply filtered_filter|].
  split; [apply keeps_satisfies|].
  split; [intros r; apply filtered_In|].
  intros r Hnone Hin.
  apply filtered_rating_present in Hin. contradiction.
Qed.


(** C10.  Every row of the filtered subset has a date, so dropping the rows
    without a date before the monthly trend removes nothing. *)
Theorem filtered_dates_present :
  (forall r, In r sub -> exists t, published_date r = Some t) /\
  dropna_subset published_date sub = sub.
Proof.
  pose proof filtered_date_present as Hall.
  split.
  - intros r Hin. specialize (Hall r Hin).
    destruct (published_date r) as [t|]; [eauto | congruence].
  - apply dropna_subset_all_present. exact Hall.
Qed.


End Filtered.




Lemma select_isin_rating (sub : list Review) (values : list Q) :
  select sub (isin Qeq_bool (map rating sub) values) =
  List.filter (fun r => match rating r with
                        | Some v => existsb (Qeq_bool v) values
                        | None => false
                        end) sub.
Proof.
  unfold isin. rewrite map_map. apply select_map.
Qed.








(** C5.  When the start date of the widgets is after the end date, the
    script goes on with the two exchanged, so the range it filters on has its
    start before its end; the sidebar shows the caption about the swap; and
    the filtered subset is the one the exchanged dates give on their own, row
    for row. *)
Theorem swapped_dates_corrected (data : list Review) (inp : Inputs) :
  ts_gtb (to_datetime_date (start_date_input inp))
         (to_datetime_date (end_date_input inp)) = true ->
  outcome (swap_dates (to_datetime_date (start_date_input inp))
                      (to_datetime_date (end_date_input inp)))
  = inr (to_datetime_date (end_date_input inp),
         to_datetime_date (start_date_input inp)) /\
  ts_le (to_datetime_date (end_date_input inp))
        (to_datetime_date (start_date_input inp)) /\
  In (SidebarCaption "Swapped dates so Start is before End.")
     (rendered (filter_reviews data inp)) /\
  outcome (filter_reviews data inp)
  = inr (filtered data (to_datetime_date (end_date_input inp))
           (to_datetime_date (start_date_input inp))
           (selected_platforms inp) (selected_types inp) (rating_range inp)) /\
  outcome (filter_reviews data inp)
  = outcome (filter_reviews data (exchanged inp)) /\
  rendered (filter_reviews data (exchanged inp)) = [].
Proof.
  intros Hgt.
  pose proof (ts_gtb_asym _ _ Hgt) as Hlt.
  unfold filter_reviews, swap_dates. simpl.
  rewrite Hgt, Hlt. simpl.
  repeat split; auto.
  apply ts_gtb_le. exact Hgt.
Qed.

Lemma swapped_dates_corrected_witness :
  ts_gtb (to_datetime_date (start_date_input late_start))
         (to_datetime_date (end_date_input late_start)) = true /\
  outcome (filter_reviews gap_data late_start)
  = outcome (filter_reviews gap_data (exchanged late_start)).
Proof.
  split.
  - reflexivity.
  - apply (swapped_dates_corrected gap_data late_start). reflexivity.
Defined.

(** C7.  Loading a table that parses gives one normalized row per row of the
    file.  In each, the date is missing when the cell is absent or is no
    date, and is otherwise the instant in UTC without a zone; the helpful
    votes are never missing, and are 0 when the cell is absent or is no
    number; an absent platform or type is "Unknown", a present one is
    kept. *)
Theorem load_reviews_normalized (parse_datetime : string -> option Timestamp)
  (parse_number : string -> option Q) (rows : list RawReview) :
  load_reviews parse_datetime parse_number (Table rows)
  = ([], inr (map (normalize parse_datetime parse_number) rows)) /\
  forall raw : RawReview,
    let r := normalize parse_datetime parse_number raw in
    published_date r
    = match raw_published_date raw with
      | Some s => parse_datetime s
      | None => None
      end /\
    published_date r
    = option_map utc_wall
        (to_datetime_utc parse_datetime (raw_published_date raw)) /\
    (forall t, to_datetime_utc parse_datetime (raw_published_date raw) = Some t
               -> zone t = "UTC"%string) /\
    helpful_votes r <> None /\
    (to_numeric parse_number (raw_helpful_votes raw) = None ->
     helpful_votes r = Some 0%Q) /\
    (forall q, to_numeric parse_number (raw_helpful_votes raw) = Some q ->
               helpful_votes r = Some q) /\
    published_platform r
    = Some match raw_published_platform raw with
           | Some p => p
           | None => "Unknown"%string
           end /\
    type r
    = Some match raw_type raw with
           | Some p => p
           | None => "Unknown"%string
           end.
Proof.
  split; [reflexivity|].
  intros raw r. subst r. unfold normalize. simpl.
  unfold to_datetime_utc, tz_convert_None, fillna.
  destruct (raw_published_date raw) as [s|];
    [destruct (parse_datetime s) as [t|]|];
    destruct (to_numeric parse_number (raw_helpful_votes raw)) as [q|];
    destruct (raw_published_platform raw), (raw_type raw);
    simpl; repeat split; try congruence;
    intros t0 H; injection H as <-; reflexivity.
Qed.

(** C8, as the code has it.  When [pd.read_csv] raises an exception, which
    is [FileNotFoundError] for a missing file and the parse error of pandas
    for a file that does not parse, [load_reviews] ends with that exception
    and so does the script; the title and the introduction, rendered before
    the load, are on the page and nothing else is. *)
Theorem load_failure_propagates (parse_datetime : string -> option Timestamp)
  (parse_number : string -> option Q) (path : File) (e : Exception)
  (inp : Inputs) :
  outcome (read_csv path) = inl e ->
  (path = Missing -> e = "FileNotFoundError"%string) /\
  outcome (load_reviews parse_datetime parse_number path) = inl e /\
  rendered (load_reviews parse_datetime parse_number path) = [] /\
  outcome (app parse_datetime parse_number path inp) = inl e /\
  rendered (app parse_datetime parse_number path inp)
  = [ Title "SIA Review Pulse";
      Markdown
        "Explore Singapore Airlines reviews with filters, summary stats, and trends." ].
Proof.
  intros H.
  destruct path as [|e'|rows]; simpl in H; [| |discriminate H];
    injection H as <-; repeat split; try reflexivity; discriminate.
Qed.

Lemma load_failure_propagates_witness :
  outcome (read_csv (Unreadable "ParserError"%string)) = inl "ParserError"%string /\
  outcome (app no_date no_number (Unreadable "ParserError"%string) late_start)
  = inl "ParserError"%string.
Proof.
  split.
  - reflexivity.
  - apply (load_failure_propagates no_date no_number
             (Unreadable "ParserError"%string) "ParserError"%string
             late_start).
    reflexivity.
Defined.

(** C8 as stated fails: with the file missing the exception is
    [FileNotFoundError], not [DataLoadError], and the page is not empty. *)
Lemma load_failure_no_DataLoadError :
  outcome (load_reviews no_date no_number Missing)
  = inl "FileNotFoundError"%string /\
  outcome (load_reviews no_date no_number Missing)
  <> inl "DataLoadError"%string /\
  outcome (app no_date no_number Missing late_start)
  <> inl "DataLoadError"%string /\
  rendered (app no_date no_number Missing late_start) <> [].
Proof.
  repeat split; simpl; discriminate.
Qed.

(** C1, as the code has it.  Of three rows with ratings 5, 1 and none on the
    platforms Web, App and Web, filtered with the rating range 1 to 5 and
    both platforms selected, the row without a rating is dropped; when the
    dates and types of the other two pass, the subset is these two rows:
    2 reviews, average rating 3, positive share 50, negative share 50, and
    the histogram has the buckets 1 and 5 with one row each and no bucket
    for the missing rating. *)
Theorem scenario_without_null_row (r1 r2 r3 : Review) (s e : Timestamp)
  (ps ts : list string) :
  rating r1 = Some 5%Q -> rating r2 = Some 1%Q -> rating r3 = None ->
  published_platform r1 = Some "Web"%string ->
  published_platform r2 = Some "App"%string ->
  published_platform r3 = Some "Web"%string ->
  In "Web"%string ps -> In "App"%string ps ->
  date_in_range s e r1 -> date_in_range s e r2 ->
  type_selected ts r1 -> type_selected ts r2 ->
  let sub := filtered [r1; r2; r3] s e ps ts (1, 5) in
  sub = [r1; r2] /\
  total_reviews sub = 2%nat /\
  (exists m, avg_rating sub = Some m /\ m = 3%float) /\
  positive_share sub = 50%float /\
  negative_share sub = 50%float /\
  rating_counts sub = [(Some 1%Q, 1%nat); (Some 5%Q, 1%nat)].
Proof.
  intros R1 R2 R3 P1 P2 P3 Hweb Happ D1 D2 T1 T2 sub.
  assert (K1 : keeps s e ps ts (1, 5) r1 = true).
  { apply keeps_satisfies. repeat split; auto.
    - exists "Web"%string. auto.
    - exists 5%Q. repeat split; auto; discriminate. }
  assert (K2 : keeps s e ps ts (1, 5) r2 = true).
  { apply keeps_satisfies. repeat split; auto.
    - exists "App"%string. auto.
    - exists 1%Q. repeat split; auto; discriminate. }
  assert (E : sub = [r1; r2]).
  { subst sub. rewrite filtered_filter. simpl.
    rewrite K1, K2, (keeps_no_rating _ _ _ _ _ r3 R3). reflexivity. }
  rewrite E. split; [reflexivity|]. split; [reflexivity|].
  unfold avg_rating, positive_share, negative_share, share, rating_count,
    rating_counts, total_reviews.
  simpl map. rewrite R1, R2.
  split; [eexists; split; reflexivity|].
  split; [reflexivity|]. split; reflexivity.
Qed.

Lemma scenario_without_null_row_witness :
  (rating row_5_web = Some 5%Q /\ rating row_1_app = Some 1%Q /\
   rating row_none_web = None) /\
  scenario_sub = [row_5_web; row_1_app].
Proof.
  split; [repeat split|].
  refine (proj1 (scenario_without_null_row row_5_web row_1_app row_none_web
                   jan_1 dec_31 ["App"%string; "Web"%string]
                   ["review"%string]
                   eq_refl eq_refl eq_refl eq_refl eq_refl eq_refl
                   _ _ _ _ _ _)).
  - simpl. auto.
  - simpl. auto.
  - eexists. split; [reflexivity|]. split; vm_compute; discriminate.
  - eexists. split; [reflexivity|]. split; vm_compute; discriminate.
  - eexists. split; [reflexivity|]. simpl. auto.
  - eexists. split; [reflexivity|]. simpl. auto.
Defined.

(** C1 as stated fails: the scenario filtered gives 2 reviews, not 3, shares
    of 50 and not 33.3, and no bucket for the missing rating. *)
Lemma scenario_not_three_rows :
  total_reviews scenario_sub <> 3%nat /\
  PrimFloat.ltb (positive_share scenario_sub) 34 = false /\
  PrimFloat.ltb (negative_share scenario_sub) 34 = false /\
  ~ In (None, 1%nat) (rating_counts scenario_sub).
Proof.
  split; [vm_compute; discriminate|].
  split; [vm_compute; reflexivity|].
  split; [vm_compute; reflexivity|].
  vm_compute. intros [H|[H|[]]]; discriminate H.
Qed.

Lemma dropna_map_subset {R A : Type} (col : R -> option A) (l : list R) :
  dropna (map col (dropna_subset col l)) = dropna (map col l).
Proof.
  unfold dropna_subset.
  induction l as [|r l IH]; simpl.
  - reflexivity.
  - destruct (col r) eqn:E; simpl; rewrite ?E, IH; reflexivity.
Qed.

Lemma months_between_In (lo hi k : Z) :
  In k (months_between lo hi) <-> lo <= k <= hi.
Proof.
  unfold months_between. rewrite in_map_iff. split.
  - intros [i [<- Hi]]. apply in_seq in Hi. lia.
  - intros H. exists (Z.to_nat (k - lo)). split; [lia|].
    apply in_seq. lia.
Qed.

Lemma months_between_nth (lo hi : Z) (i : nat) (d : Z) :
  (i < List.length (months_between lo hi))%nat ->
  nth i (months_between lo hi) d = lo + Z.of_nat i.
Proof.
  unfold months_between. rewrite length_map, length_seq. intros Hi.
  rewrite (nth_indep _ d (lo + Z.of_nat 0)) by (rewrite length_map, length_seq; exact Hi).
  rewrite (map_nth (fun i => lo + Z.of_nat i)), seq_nth by exact Hi.
  reflexivity.
Qed.

Lemma months_between_NoDup (lo hi : Z) : NoDup (months_between lo hi).
Proof.
  unfold months_between.
  apply Injective_map_NoDup; [|apply seq_NoDup].
  intros i j H. lia.
Qed.

Lemma fold_min_spec (m : Z) (ms : list Z) :
  In (fold_right Z.min m ms) (m :: ms) /\
  forall x, In x (m :: ms) -> fold_right Z.min m ms <= x.
Proof.
  induction ms as [|y ms [IH1 IH2]]; simpl.
  - split; [auto | intros x [<-|[]]; lia].
  - split.
    + destruct (Z.min_spec y (fold_right Z.min m ms)) as [[_ ->]|[_ ->]].
      * auto.
      * simpl in IH1. destruct IH1; auto.
    + intros x [<-|[<-|H]].
      * specialize (IH2 m (or_introl eq_refl)). lia.
      * lia.
      * specialize (IH2 x (or_intror H)). lia.
Qed.

Lemma fold_max_spec (m : Z) (ms : list Z) :
  In (fold_right Z.max m ms) (m :: ms) /\
  forall x, In x (m :: ms) -> x <= fold_right Z.max m ms.
Proof.
  induction ms as [|y ms [IH1 IH2]]; simpl.
  - split; [auto | intros x [<-|[]]; lia].
  - split.
    + destruct (Z.max_spec y (fold_right Z.max m ms)) as [[_ ->]|[_ ->]].
      * simpl in IH1. destruct IH1; auto.
      * auto.
    + intros x [<-|[<-|H]].
      * specialize (IH2 m (or_introl eq_refl)). lia.
      * lia.
      * specialize (IH2 x (or_intror H)). lia.
Qed.

Lemma bin_size_pos (ms : list Z) (m : Z) :
  In m ms <-> (0 < bin_size ms m)%nat.
Proof.
  unfold bin_size.
  induction ms as [|x ms IH]; simpl.
  - split; [intros [] | lia].
  - destruct (Z.eqb_spec m x) as [->|Hne]; simpl.
    + split; [lia | auto].
    + rewrite <- IH. split; [intros [H|H]; [congruence | exact H] | auto].
Qed.

(** The months of the trend are those from the earliest to the latest month
    of the rows, each with the number of rows in it. *)
Lemma trend_In (sub : list Review) (m : Z) (n : nat) :
  In (m, n) (trend sub) <->
  n = bin_size (row_months sub) m /\
  exists a b, In a (row_months sub) /\ In b (row_months sub) /\ a <= m <= b.
Proof.
  unfold trend, row_months, resample_M_size.
  rewrite dropna_map_subset.
  destruct (map month_index (dropna (map published_date sub))) as [|x xs].
  - simpl. split; [intros [] | intros [_ [a [_ [[] _]]]]].
  - destruct (fold_min_spec x xs) as [Hmin1 Hmin2].
    destruct (fold_max_spec x xs) as [Hmax1 Hmax2].
    rewrite in_map_iff. split.
    + intros [k [E Hk]]. injection E as -> <-.
      apply months_between_In in Hk.
      split; [reflexivity|]. eauto.
    + intros [-> [a [b [Ha [Hb Hab]]]]].
      exists m. split; [reflexivity|].
      apply months_between_In.
      specialize (Hmin2 a Ha). specialize (Hmax2 b Hb). lia.
Qed.

Lemma trend_months (sub : list Review) :
  map fst (trend sub) = nil \/
  exists lo hi, map fst (trend sub) = months_between lo hi.
Proof.
  unfold trend, resample_M_size.
  destruct (map month_index _) as [|x xs].
  - left. reflexivity.
  - right. exists (fold_right Z.min x xs), (fold_right Z.max x xs).
    rewrite map_map. simpl. apply map_id.
Qed.

(** C2, as the code has it.  The trend has exactly one entry for every month
    from the earliest to the latest month of the rows with a date, in
    chronological order, each month followed by the next one; the count of
    an entry is the number of rows of that month, which is 0 for a month of
    the span without rows. *)
Theorem trend_spans_months (sub : list Review) :
  (forall m n, In (m, n) (trend sub) <->
     n = bin_size (row_months sub) m /\
     exists a b, In a (row_months sub) /\ In b (row_months sub) /\
                 a <= m <= b) /\
  (forall m, In m (row_months sub) <-> (0 < bin_size (row_months sub) m)%nat) /\
  NoDup (map fst (trend sub)) /\
  (forall i, (S i < List.length (map fst (trend sub)))%nat ->
     nth (S i) (map fst (trend sub)) 0 = nth i (map fst (trend sub)) 0 + 1).
Proof.
  split; [intros m n; apply trend_In|].
  split; [intros m; apply bin_size_pos|].
  destruct (trend_months sub) as [-> | [lo [hi ->]]].
  - split; [constructor | simpl; lia].
  - split; [apply months_between_NoDup|].
    intros i Hi. rewrite !months_between_nth by lia. lia.
Qed.

(** C2 as stated fails: with rows in January and March 2024 only, the trend
    has an entry for February, with count 0, though no row of the subset is
    dated in February. *)
Lemma trend_emits_empty_month :
  month_label february_2024 = (2024, 2) /\
  In (february_2024, 0%nat) (trend gap_sub) /\
  ~ In february_2024 (row_months gap_sub) /\
  List.length (trend gap_sub) = 3%nat /\
  List.length gap_sub = 2%nat.
Proof.
  split; [reflexivity|].
  split; [vm_compute; auto|].
  split; [|split; reflexivity].
  vm_compute. intros [H|[H|[]]]; discriminate H.
Qed.

(** ** Further properties of the filter *)

Lemma ts_compare_eq (a b : Timestamp) : ts_compare a b = Eq -> a = b.
Proof.
  destruct a as [y1 m1 d1 n1], b as [y2 m2 d2 n2].
  unfold ts_compare; simpl.
  destruct (Z.compare_spec y1 y2); simpl; try discriminate.
  destruct (Z.compare_spec m1 m2); simpl; try discriminate.
  destruct (Z.compare_spec d1 d2); simpl; try discriminate.
  destruct (Z.compare_spec n1 n2); simpl; try discriminate.
  intros _. congruence.
Qed.

Lemma lex_le_trans (x y z : Z) (c1 c2 c3 : comparison) :
  (c1 <> Gt -> c2 <> Gt -> c3 <> Gt) ->
  lex (x ?= y) c1 <> Gt -> lex (y ?= z) c2 <> Gt -> lex (x ?= z) c3 <> Gt.
Proof.
  intros H.
  destruct (Z.compare_spec x y), (Z.compare_spec y z), (Z.compare_spec x z);
    simpl; try lia; try congruence; auto.
Qed.

Lemma ts_le_trans (a b c : Timestamp) : ts_le a b -> ts_le b c -> ts_le a c.
Proof.
  unfold ts_le, ts_compare.
  apply lex_le_trans, lex_le_trans, lex_le_trans.
  destruct (Z.compare_spec (nanos a) (nanos b)),
    (Z.compare_spec (nanos b) (nanos c)),
    (Z.compare_spec (nanos a) (nanos c)); try lia; congruence.
Qed.

Lemma ts_le_refl (a : Timestamp) : ts_le a a.
Proof.
  unfold ts_le, ts_compare. rewrite !Z.compare_refl. simpl. discriminate.
Qed.

Lemma ts_le_total (a b : Timestamp) : ts_le a b \/ ts_le b a.
Proof.
  unfold ts_le. rewrite (ts_compare_antisym a b).
  destruct (ts_compare a b); simpl; [left | left | right]; discriminate.
Qed.

Lemma filter_idempotent {A : Type} (f : A -> bool) (l : list A) :
  List.filter f (List.filter f l) = List.filter f l.
Proof.
  induction l as [|x l IH]; simpl; [reflexivity|].
  destruct (f x) eqn:E; simpl; rewrite ?E, IH; reflexivity.
Qed.

(** X1.  Filtering the filtered subset again with the same settings changes
    nothing. *)
Theorem filtered_idempotent (data : list Review) (s e : Timestamp)
  (ps ts : list string) (rr : Z * Z) :
  filtered (filtered data s e ps ts rr) s e ps ts rr
  = filtered data s e ps ts rr.
Proof.
  rewrite (filtered_filter (filtered data s e ps ts rr)).
  rewrite (filtered_filter data).
  apply filter_idempotent.
Qed.

(** X2.  The two dates of the widgets can be given in either order: the
    filtered subset is the same. *)
Theorem filter_reviews_symmetric (data : list Review) (inp : Inputs) :
  outcome (filter_reviews data (exchanged inp))
  = outcome (filter_reviews data inp).
Proof.
  unfold filter_reviews, swap_dates, exchanged, ts_gtb. simpl.
  rewrite (ts_compare_antisym (to_datetime_date (start_date_input inp))
                              (to_datetime_date (end_date_input inp))).
  destruct (ts_compare (to_datetime_date (start_date_input inp))
                       (to_datetime_date (end_date_input inp))) eqn:E;
    simpl; try reflexivity.
  apply ts_compare_eq in E. rewrite E. reflexivity.
Qed.

(** X3.  The end date counts up to midnight only: a row published on the end
    date later than midnight is not in the filtered subset, whatever the
    other settings, while the whole of the start date passes the test on the
    start. *)
Theorem end_date_is_midnight (data : list Review) (start_date end_date : Date)
  (ps ts : list string) (rr : Z * Z) (r : Review) (t : Timestamp) :
  published_date r = Some t ->
  (date_of t = end_date -> 0 < nanos t ->
   ~ In r (filtered data (to_datetime_date start_date)
             (to_datetime_date end_date) ps ts rr)) /\
  (date_of t = start_date -> 0 <= nanos t ->
   ts_le (to_datetime_date start_date) t).
Proof.
  intros Ht. split.
  - intros <- Hpos Hin.
    apply filtered_In in Hin.
    destruct Hin as [_ [[t' [E [_ Hle]]] _]].
    rewrite Ht in E. injection E as <-.
    apply Hle. unfold ts_compare, to_datetime_date, date_of. simpl.
    rewrite !Z.compare_refl. simpl. apply Z.compare_gt_iff. exact Hpos.
  - intros <- Hpos.
    unfold ts_le, ts_compare, to_datetime_date, date_of. simpl.
    rewrite !Z.compare_refl. simpl.
    destruct (nanos t); try discriminate. exfalso. lia.
Qed.

Lemma end_date_is_midnight_witness :
  ~ In row_noon (filtered [row_noon] jan_1 dec_31
                   ["Web"%string] ["review"%string] (1, 5)).
Proof.
  apply (proj1 (end_date_is_midnight [row_noon] (mkDate 2024 1 1)
                  (mkDate 2024 12 31) ["Web"%string] ["review"%string] (1, 5)
                  row_noon (mkTimestamp 2024 12 31 43200000000000)
                  eq_refl)).
  - reflexivity.
  - reflexivity.
Defined.

(** X4.  When no platform or no type is selected, the filtered subset is
    empty, and the page shows it so: the summary for 0 reviews, "N/A" as the
    average and as the median, shares of 0, charts without an entry, and
    "No data" as the text of both keyword images. *)
Theorem nothing_selected_empty_page (data : list Review) (s e : Timestamp)
  (ps ts : list string) (rr : Z * Z) :
  ps = [] \/ ts = [] ->
  filtered data s e ps ts rr = [] /\
  summary (filtered data s e ps ts rr) = SummaryEmpty /\
  avg_metric (filtered data s e ps ts rr) = NotAvailable /\
  median_metric (filtered data s e ps ts rr) = NotAvailable /\
  positive_share (filtered data s e ps ts rr) = 0%float /\
  negative_share (filtered data s e ps ts rr) = 0%float /\
  rating_counts (filtered data s e ps ts rr) = [] /\
  trend (filtered data s e ps ts rr) = [] /\
  wordcloud_input (positive_text (filtered data s e ps ts rr))
  = "No data"%string /\
  wordcloud_input (negative_text (filtered data s e ps ts rr))
  = "No data"%string.
Proof.
  intros Hsel.
  assert (Hnil : filtered data s e ps ts rr = []).
  { rewrite filtered_filter.
    induction data as [|r l IH]; simpl; [reflexivity|].
    replace (keeps s e ps ts rr r) with false; [exact IH|].
    unfold keeps. destruct Hsel as [-> | ->].
    - destruct (published_platform r); simpl;
        rewrite ?andb_false_r; reflexivity.
    - destruct (type r); simpl; rewrite ?andb_false_r; reflexivity. }
  rewrite Hnil. repeat split; reflexivity.
Qed.

Lemma nothing_selected_empty_page_witness :
  (selected_platforms nothing_selected = [] \/
   selected_types nothing_selected = []) /\
  filtered scenario_data jan_1 dec_31 (selected_platforms nothing_selected)
    (selected_types nothing_selected) (rating_range nothing_selected) = [].
Proof.
  split.
  - left. reflexivity.
  - apply (nothing_selected_empty_page scenario_data jan_1 dec_31
             (selected_platforms nothing_selected)
             (selected_types nothing_selected)
             (rating_range nothing_selected)).
    left. reflexivity.
Defined.

(** ** Further properties of the histograms *)

Lemma key_eqb_refl (a : option Q) : key_eqb a a = true.
Proof. destruct a; simpl; [apply Qeq_bool_iff; reflexivity | reflexivity]. Qed.

Lemma key_eqb_sym (a b : option Q) : key_eqb a b = true -> key_eqb b a = true.
Proof.
  destruct a, b; simpl; try discriminate; auto.
  rewrite !Qeq_bool_iff. intros H. symmetry. exact H.
Qed.

Lemma key_eqb_trans (a b c : option Q) :
  key_eqb a b = true -> key_eqb b c = true -> key_eqb a c = true.
Proof.
  destruct a, b, c; simpl; try discriminate; auto.
  rewrite !Qeq_bool_iff. intros H1 H2. rewrite H1. exact H2.
Qed.

Lemma key_lt_trans (a b c : option Q) : key_lt a b -> key_lt b c -> key_lt a c.
Proof.
  destruct a, b, c; simpl; try tauto. apply Qlt_trans.
Qed.

Lemma key_lt_not_eqb (a b : option Q) : key_lt a b -> key_eqb a b = false.
Proof.
  destruct a, b; simpl; try tauto.
  intros H. apply not_true_is_false. rewrite Qeq_bool_iff. intros E.
  rewrite E in H. exact (Qlt_irrefl _ H).
Qed.

Lemma key_lt_eqb_r (a b c : option Q) :
  key_lt a b -> key_eqb b c = true -> key_lt a c.
Proof.
  destruct a, b, c; simpl; try tauto; try discriminate.
  rewrite Qeq_bool_iff. intros H E. rewrite <- E. exact H.
Qed.

Lemma key_leb_lt (a b : option Q) :
  key_eqb a b = false -> key_leb a b = true -> key_lt a b.
Proof.
  destruct a, b; simpl; try discriminate; auto.
  rewrite Qle_bool_iff. intros E H.
  apply Qle_lt_or_eq in H. destruct H as [H|H]; [exact H|].
  apply Qeq_bool_iff in H. congruence.
Qed.

Lemma key_not_leb_lt (a b : option Q) : key_leb a b = false -> key_lt b a.
Proof.
  destruct a, b; simpl; try discriminate; auto.
  intros H. apply Qnot_le_lt. rewrite <- Qle_bool_iff. congruence.
Qed.

Lemma key_lt_leb (a b : option Q) : key_lt a b -> key_leb a b = true.
Proof.
  destruct a, b; simpl; try tauto.
  intros H. apply Qle_bool_iff, Qlt_le_weak. exact H.
Qed.

Lemma insert_key_sorted (k : option Q) (ks : list (option Q)) :
  StronglySorted key_lt ks -> StronglySorted key_lt (insert_key k ks).
Proof.
  induction 1 as [|h t Hs IH Hall]; simpl.
  - repeat constructor.
  - destruct (key_eqb k h) eqn:E; [constructor; assumption|].
    destruct (key_leb k h) eqn:L.
    + pose proof (key_leb_lt _ _ E L) as Hkh.
      constructor; [constructor; assumption|].
      constructor; [exact Hkh|].
      apply Forall_impl with (P := key_lt h); [|exact Hall].
      intros x. apply key_lt_trans. exact Hkh.
    + constructor; [exact IH|].
      apply Forall_forall. intros x Hx.
      destruct (insert_key_In _ _ _ Hx) as [-> | Hx'].
      * apply key_not_leb_lt. exact L.
      * rewrite Forall_forall in Hall. auto.
Qed.

Lemma group_keys_sorted (s : list (option Q)) :
  StronglySorted key_lt (group_keys s).
Proof.
  unfold group_keys.
  assert (G : forall acc, StronglySorted key_lt acc ->
                StronglySorted key_lt
                  (fold_left (fun ks k => insert_key k ks) s acc)).
  { induction s as [|x s IH]; simpl; intros acc H; [exact H|].
    apply IH, insert_key_sorted, H. }
  apply G. constructor.
Qed.

Lemma insert_key_keeps (k x : option Q) (ks : list (option Q)) :
  In k ks -> In k (insert_key x ks).
Proof.
  induction ks as [|h t IH]; simpl; [tauto|].
  destruct (key_eqb x h); [auto|].
  destruct (key_leb x h); simpl; intuition auto.
Qed.

Lemma insert_key_covers (x : option Q) (ks : list (option Q)) :
  existsb (fun k => key_eqb k x) (insert_key x ks) = true.
Proof.
  induction ks as [|h t IH]; simpl.
  - rewrite key_eqb_refl. reflexivity.
  - destruct (key_eqb x h) eqn:E.
    + simpl. rewrite (key_eqb_sym _ _ E). reflexivity.
    + destruct (key_leb x h); simpl.
      * rewrite key_eqb_refl. reflexivity.
      * rewrite IH. apply orb_true_r.
Qed.

Lemma group_keys_cover (s : list (option Q)) (x : option Q) :
  In x s -> existsb (fun k => key_eqb k x) (group_keys s) = true.
Proof.
  unfold group_keys.
  assert (G : forall acc,
             (In x s \/ existsb (fun k => key_eqb k x) acc = true) ->
             existsb (fun k => key_eqb k x)
               (fold_left (fun ks k => insert_key k ks) s acc) = true).
  { induction s as [|y s IH]; simpl; intros acc H.
    - destruct H as [[]|H]. exact H.
    - apply IH. destruct H as [[-> | H] | H].
      + right. apply insert_key_covers.
      + left. exact H.
      + right. apply existsb_exists in H. destruct H as [k [Hk E]].
        apply existsb_exists. exists k. split; [|exact E].
        apply insert_key_keeps. exact Hk. }
  intros H. apply G. left. exact H.
Qed.

Lemma filter_or_length {A : Type} (p q : A -> bool) (l : list A) :
  (forall x, In x l -> p x = true -> q x = false) ->
  List.length (List.filter (fun x => p x || q x) l)
  = (List.length (List.filter p l) + List.length (List.filter q l))%nat.
Proof.
  induction l as [|x l IH]; simpl; intros H; [reflexivity|].
  assert (IH' := IH (fun y Hy => H y (or_intror Hy))).
  destruct (p x) eqn:Ep.
  - rewrite (H x (or_introl eq_refl) Ep). simpl. rewrite IH'. reflexivity.
  - destruct (q x); simpl; rewrite IH'; lia.
Qed.

Lemma filter_all_length {A : Type} (p : A -> bool) (l : list A) :
  (forall x, In x l -> p x = true) ->
  List.length (List.filter p l) = List.length l.
Proof.
  induction l as [|x l IH]; simpl; intros H; [reflexivity|].
  rewrite (H x (or_introl eq_refl)). simpl.
  rewrite IH; [reflexivity|]. intros y Hy. apply H. right. exact Hy.
Qed.

Lemma total_count_groups (s ks : list (option Q)) :
  StronglySorted key_lt ks ->
  total_count (map (fun k => (k, group_size s k)) ks)
  = List.length (List.filter (fun x => existsb (fun k => key_eqb k x) ks) s).
Proof.
  induction 1 as [|h t Hs IH Hall]; simpl.
  - induction s; simpl; auto.
  - rewrite IH. unfold group_size.
    rewrite (filter_or_length (key_eqb h)
               (fun x => existsb (fun k => key_eqb k x) t)); [reflexivity|].
    intros x _ Hx. apply not_true_is_false. intros Hex.
    apply existsb_exists in Hex. destruct Hex as [k [Hk E]].
    rewrite Forall_forall in Hall.
    pose proof (key_lt_not_eqb _ _ (Hall k Hk)) as Hne.
    rewrite (key_eqb_trans _ _ _ Hx (key_eqb_sym _ _ E)) in Hne.
    discriminate.
Qed.

Lemma sorted_prefix_lt {A : Type} (R : A -> A -> Prop) (l1 l2 : list A)
  (x : A) :
  StronglySorted R (l1 ++ x :: l2) -> Forall (fun h => R h x) l1.
Proof.
  induction l1 as [|a l1 IH]; simpl; intros H; [constructor|].
  apply StronglySorted_inv in H. destruct H as [Hs Hall].
  constructor.
  - rewrite Forall_forall in Hall. apply Hall. apply in_elt.
  - apply IH. exact Hs.
Qed.

Lemma insert_sorted_last (x : option Q * nat) (acc : list (option Q * nat)) :
  Forall (fun h => key_lt (fst h) (fst x)) acc ->
  insert_sorted x acc = (acc ++ [x])%list.
Proof.
  induction 1 as [|h t Hh Ht IH]; simpl; [reflexivity|].
  rewrite (key_lt_leb _ _ Hh), IH. reflexivity.
Qed.

(** On a frame whose keys are already in ascending order, [sort_values]
    changes nothing. *)
Lemma sort_values_sorted (l : list (option Q * nat)) :
  StronglySorted (fun a b => key_lt (fst a) (fst b)) l -> sort_values l = l.
Proof.
  unfold sort_values.
  assert (G : forall acc,
             StronglySorted (fun a b => key_lt (fst a) (fst b)) (acc ++ l) ->
             fold_left (fun a x => insert_sorted x a) l acc = (acc ++ l)%list).
  { induction l as [|x l IH]; simpl; intros acc H.
    - rewrite app_nil_r. reflexivity.
    - rewrite (insert_sorted_last x acc).
      + rewrite IH; rewrite <- app_assoc; [reflexivity | exact H].
      + exact (sorted_prefix_lt _ _ _ _ H). }
  intros H. apply (G []). exact H.
Qed.

Lemma sorted_map_fst (s ks : list (option Q)) :
  StronglySorted key_lt ks ->
  StronglySorted (fun a b : option Q * nat => key_lt (fst a) (fst b))
    (map (fun k => (k, group_size s k)) ks).
Proof.
  induction 1 as [|h t Hs IH Hall]; simpl; constructor; [exact IH|].
  apply Forall_map. exact Hall.
Qed.

Lemma rating_counts_groupby (sub : list Review) :
  rating_counts sub = groupby_size (map rating sub).
Proof.
  unfold rating_counts, groupby_size.
  apply sort_values_sorted, sorted_map_fst, group_keys_sorted.
Qed.

(** X5.  The rating histogram lists each distinct rating of the subset
    exactly once, in ascending order with the missing rating last, so that
    [sort_values] finds the groups already in that order: every row's
    rating has a bucket, every bucket is the rating of some row, and the
    count of a bucket is the number of rows with that rating, which is not
    0. *)
Theorem rating_counts_ascending (sub : list Review) :
  StronglySorted key_lt (map fst (rating_counts sub)) /\
  rating_counts sub = groupby_size (map rating sub) /\
  (forall r, In r sub ->
     exists k, key_eqb k (rating r) = true /\
               In (k, group_size (map rating sub) k) (rating_counts sub)) /\
  (forall k n, In (k, n) (rating_counts sub) ->
     n = group_size (map rating sub) k /\
     (0 < n)%nat /\ exists r, In r sub /\ rating r = k).
Proof.
  rewrite rating_counts_groupby.
  split; [|split; [reflexivity | split]].
  - unfold groupby_size. rewrite map_map. simpl. rewrite map_id.
    apply group_keys_sorted.
  - intros r Hr.
    pose proof (group_keys_cover (map rating sub) (rating r)
                  (in_map rating sub r Hr)) as Hc.
    apply existsb_exists in Hc. destruct Hc as [k [Hk E]].
    exists k. split; [exact E|].
    unfold groupby_size. apply in_map_iff. exists k. split; [reflexivity|].
    exact Hk.
  - intros k n Hin. unfold groupby_size in Hin.
    rewrite in_map_iff in Hin. destruct Hin as [k' [E Hk]].
    injection E as -> <-.
    apply group_keys_In in Hk.
    split; [reflexivity|]. split.
    + unfold group_size.
      induction (map rating sub) as [|x l IH]; simpl in *; [contradiction|].
      destruct Hk as [-> | Hk].
      * rewrite key_eqb_refl. simpl. lia.
      * destruct (key_eqb k x); simpl; [lia | auto].
    + rewrite in_map_iff in Hk. destruct Hk as [r [E Hr]]. eauto.
Qed.

(** X6.  The counts of the rating histogram add up to the number of rows:
    every row is counted in exactly one bucket. *)
Theorem rating_counts_total (sub : list Review) :
  total_count (rating_counts sub) = total_reviews sub.
Proof.
  rewrite rating_counts_groupby. unfold groupby_size, total_reviews.
  rewrite total_count_groups by apply group_keys_sorted.
  rewrite filter_all_length; [apply length_map|].
  intros x Hx. apply group_keys_cover. exact Hx.
Qed.

Lemma trend_shape (sub : list Review) :
  (row_months sub = [] /\ trend sub = []) \/
  exists lo hi,
    In lo (row_months sub) /\ In hi (row_months sub) /\
    (forall x, In x (row_months sub) -> lo <= x <= hi) /\
    trend sub
    = map (fun k => (k, bin_size (row_months sub) k)) (months_between lo hi).
Proof.
  unfold trend, row_months, resample_M_size.
  rewrite dropna_map_subset.
  destruct (map month_index (dropna (map published_date sub))) as [|x xs].
  - left. split; reflexivity.
  - right.
    destruct (fold_min_spec x xs) as [Hmin1 Hmin2].
    destruct (fold_max_spec x xs) as [Hmax1 Hmax2].
    exists (fold_right Z.min x xs), (fold_right Z.max x xs).
    repeat split; auto.
Qed.

Lemma total_count_indicator (x : Z) (l : list Z) :
  NoDup l -> In x l ->
  total_count (map (fun k => (k, if Z.eqb k x then 1%nat else O)) l) = 1%nat.
Proof.
  induction 1 as [|a l Hnot Hnd IH]; simpl; [tauto|].
  intros [-> | Hin].
  - rewrite Z.eqb_refl.
    assert (Z0 : total_count
                   (map (fun k => (k, if Z.eqb k x then 1%nat else O)) l) = O).
    { clear IH Hnd. induction l as [|b l IHl]; simpl; [reflexivity|].
      destruct (Z.eqb_spec b x) as [->|_].
      - exfalso. apply Hnot. left. reflexivity.
      - apply IHl. intros H. apply Hnot. right. exact H. }
    rewrite Z0. reflexivity.
  - destruct (Z.eqb_spec a x) as [->|_]; [contradiction|].
    simpl. apply IH. exact Hin.
Qed.

Lemma total_count_bins (ms l : list Z) :
  NoDup l -> (forall x, In x ms -> In x l) ->
  total_count (map (fun k => (k, bin_size ms k)) l) = List.length ms.
Proof.
  intros Hnd.
  induction ms as [|x ms IH]; intros Hin.
  - unfold bin_size. simpl. clear Hnd Hin.
    induction l; simpl; auto.
  - assert (Hsplit :
      total_count (map (fun k => (k, bin_size (x :: ms) k)) l)
      = (total_count (map (fun k => (k, if Z.eqb k x then 1%nat else O)) l)
         + total_count (map (fun k => (k, bin_size ms k)) l))%nat).
    { unfold bin_size. simpl. clear.
      induction l as [|k l IHl]; simpl; [reflexivity|].
      rewrite IHl. destruct (Z.eqb k x); simpl; lia. }
    rewrite Hsplit.
    rewrite (total_count_indicator x l Hnd (Hin x (or_introl eq_refl))).
    rewrite IH by (intros y Hy; apply Hin; right; exact Hy).
    reflexivity.
Qed.

(** X7.  The counts of the monthly trend add up to the number of rows that
    have a date; on a filtered subset, to the number of its rows. *)
Theorem trend_total :
  (forall sub : list Review,
     total_count (trend sub)
     = List.length (dropna (map published_date sub))) /\
  (forall data s e ps ts rr,
     total_count (trend (filtered data s e ps ts rr))
     = total_reviews (filtered data s e ps ts rr)).
Proof.
  assert (G : forall sub : list Review,
             total_count (trend sub)
             = List.length (dropna (map published_date sub))).
  { intros sub.
    destruct (trend_shape sub) as [[E ->] | [lo [hi [_ [_ [Hb ->]]]]]].
    - unfold row_months in E. apply map_eq_nil in E. rewrite E. reflexivity.
    - rewrite total_count_bins.
      + unfold row_months. apply length_map.
      + apply months_between_NoDup.
      + intros x Hx. apply months_between_In, Hb, Hx. }
  split; [exact G|].
  intros data s e ps ts rr. rewrite G. unfold total_reviews.
  apply dropna_all_present. intros r. apply filtered_date_present.
Qed.

Lemma months_between_ends (lo hi : Z) :
  lo <= hi ->
  exists mid, months_between lo hi = lo :: mid /\
  exists front, months_between lo hi = (front ++ [hi])%list.
Proof.
  intros H. unfold months_between.
  destruct (Z.to_nat (hi - lo + 1)) as [|n] eqn:E; [lia|].
  split with (map (fun i => lo + Z.of_nat i) (seq 1 n)). split.
  - simpl. rewrite Z.add_0_r. reflexivity.
  - exists (map (fun i => lo + Z.of_nat i) (seq 0 n)).
    rewrite seq_S, map_app. simpl. repeat f_equal. lia.
Qed.

(** X8.  The monthly trend starts and ends with a month that has rows: the
    months with count 0 lie between two months with rows. *)
Theorem trend_ends_nonempty (sub : list Review) (m : Z) (n : nat) :
  (forall rest, trend sub = (m, n) :: rest -> (0 < n)%nat) /\
  (forall front, trend sub = (front ++ [(m, n)])%list -> (0 < n)%nat).
Proof.
  destruct (trend_shape sub) as [[_ E] | [lo [hi [Hlo [Hhi [Hb E]]]]]].
  - rewrite E. split.
    + intros rest H. discriminate H.
    + intros front H. destruct front; discriminate H.
  - destruct (months_between_ends lo hi (proj2 (Hb lo Hlo)))
      as [mid [E1 [front' E2]]].
    split.
    + intros rest H. rewrite E, E1 in H. simpl in H.
      injection H as <- <- _. apply bin_size_pos. exact Hlo.
    + intros front H. rewrite E, E2, map_app in H. simpl in H.
      apply app_inj_tail in H. destruct H as [_ H].
      injection H as <- <-. apply bin_size_pos. exact Hhi.
Qed.

(** ** The median of the helpful votes *)

Lemma insert_float_length (x : float) (l : list float) :
  List.length (insert_float x l) = S (List.length l).
Proof.
  induction l as [|h t IH]; simpl; [reflexivity|].
  destruct (PrimFloat.leb x h); simpl; [reflexivity|].
  rewrite IH. reflexivity.
Qed.

Lemma sort_float_length (l : list float) :
  List.length (sort_float l) = List.length l.
Proof.
  induction l as [|x l IH]; simpl; [reflexivity|].
  rewrite insert_float_length, IH. reflexivity.
Qed.

Lemma median_present (s : list (option Q)) :
  dropna s <> [] -> exists m, median s = Some m.
Proof.
  intros H. unfold median.
  rewrite sort_float_length, length_map.
  destruct (dropna s) as [|q qs]; [congruence|].
  cbn [List.length].
  destruct (Nat.even (S (List.length qs))); eauto.
Qed.





Lemma normalize_votes_present (pd : string -> option Timestamp)
  (pn : string -> option Q) (raw : RawReview) :
  helpful_votes (normalize pd pn raw) <> None.
Proof.
  unfold normalize, fillna. simpl.
  destruct (to_numeric pn (raw_helpful_votes raw)); discriminate.
Qed.

(** X10.  On a filtered subset of a loaded table the median card shows "N/A"
    exactly when the subset is empty, and a number otherwise. *)
Theorem median_card_loaded (pd : string -> option Timestamp)
  (pn : string -> option Q) (rows : list RawReview) (s e : Timestamp)
  (ps ts : list string) (rr : Z * Z) :
  (median_metric (filtered (map (normalize pd pn) rows) s e ps ts rr)
   = NotAvailable
   <-> filtered (map (normalize pd pn) rows) s e ps ts rr = []) /\
  (filtered (map (normalize pd pn) rows) s e ps ts rr <> [] ->
   exists m,
     median_metric (filtered (map (normalize pd pn) rows) s e ps ts rr)
     = Number (Some m)).
Proof.
  assert (Hall : forall r,
             In r (filtered (map (normalize pd pn) rows) s e ps ts rr) ->
             helpful_votes r <> None).
  { intros r Hr. apply filtered_In in Hr. destruct Hr as [Hr _].
    rewrite in_map_iff in Hr. destruct Hr as [raw [<- _]].
    apply normalize_votes_present. }
  set (sub := filtered (map (normalize pd pn) rows) s e ps ts rr) in *.
  unfold median_metric, total_reviews.
  split.
  - destruct sub; simpl; split; congruence.
  - intros Hne.
    destruct (median_present (map helpful_votes sub)) as [m Hm].
    + pose proof (dropna_all_present helpful_votes sub Hall) as HL.
      destruct (dropna (map helpful_votes sub)); [|discriminate].
      destruct sub; [congruence | discriminate].
    + exists m. unfold median_helpful. rewrite Hm.
      destruct sub; [congruence | reflexivity].
Qed.

(** ** The defaults of the widgets *)

Lemma dropna_In {A : Type} (s : list (option A)) (x : A) :
  In x (dropna s) <-> In (Some x) s.
Proof.
  induction s as [|[y|] s IH]; simpl.
  - tauto.
  - rewrite IH. split; intros [H|H]; auto; [left; congruence|].
    injection H as ->. auto.
  - rewrite IH. split; [auto | intros [H|H]; [discriminate | exact H]].
Qed.

Lemma fold_ts_min2 (ts : list Timestamp) (t : Timestamp) :
  In (fold_left ts_min2 ts t) (t :: ts) /\
  forall x, In x (t :: ts) -> ts_le (fold_left ts_min2 ts t) x.
Proof.
  revert t. induction ts as [|y ts IH]; intros t; simpl.
  - split; [auto | intros x [<-|[]]; apply ts_le_refl].
  - assert (Hm : ts_min2 t y = t /\ ts_le t y \/ ts_min2 t y = y /\ ts_le y t).
    { unfold ts_min2. destruct (ts_leb t y) eqn:E.
      - left. split; [reflexivity | apply ts_leb_le; exact E].
      - right. split; [reflexivity|].
        destruct (ts_le_total t y) as [H|H]; [|exact H].
        apply ts_leb_le in H. congruence. }
    destruct (IH (ts_min2 t y)) as [H1 H2].
    destruct Hm as [[E L]|[E L]]; rewrite E in *.
    + split.
      * destruct H1 as [H1|H1]; auto.
      * intros x [<-|[<-|Hx]].
        -- apply H2. left. reflexivity.
        -- apply (ts_le_trans _ t); [apply H2; left; reflexivity | exact L].
        -- apply H2. right. exact Hx.
    + split.
      * destruct H1 as [H1|H1]; auto.
      * intros x [<-|[<-|Hx]].
        -- apply (ts_le_trans _ y); [apply H2; left; reflexivity | exact L].
        -- apply H2. left. reflexivity.
        -- apply H2. right. exact Hx.
Qed.

Lemma fold_ts_max2 (ts : list Timestamp) (t : Timestamp) :
  In (fold_left ts_max2 ts t) (t :: ts) /\
  forall x, In x (t :: ts) -> ts_le x (fold_left ts_max2 ts t).
Proof.
  revert t. induction ts as [|y ts IH]; intros t; simpl.
  - split; [auto | intros x [<-|[]]; apply ts_le_refl].
  - assert (Hm : ts_max2 t y = y /\ ts_le t y \/ ts_max2 t y = t /\ ts_le y t).
    { unfold ts_max2. destruct (ts_leb t y) eqn:E.
      - left. split; [reflexivity | apply ts_leb_le; exact E].
      - right. split; [reflexivity|].
        destruct (ts_le_total t y) as [H|H]; [|exact H].
        apply ts_leb_le in H. congruence. }
    destruct (IH (ts_max2 t y)) as [H1 H2].
    destruct Hm as [[E L]|[E L]]; rewrite E in *.
    + split.
      * destruct H1 as [H1|H1]; auto.
      * intros x [<-|[<-|Hx]].
        -- apply (ts_le_trans _ y); [exact L | apply H2; left; reflexivity].
        -- apply H2. left. reflexivity.
        -- apply H2. right. exact Hx.
    + split.
      * destruct H1 as [H1|H1]; auto.
      * intros x [<-|[<-|Hx]].
        -- apply H2. left. reflexivity.
        -- apply (ts_le_trans _ t); [exact L | apply H2; left; reflexivity].
        -- apply H2. right. exact Hx.
Qed.

Lemma min_ts_spec (s : list (option Timestamp)) (t : Timestamp) :
  min_ts s = Some t ->
  In (Some t) s /\ forall x, In (Some x) s -> ts_le t x.
Proof.
  unfold min_ts. destruct (dropna s) as [|a l] eqn:E; [discriminate|].
  intros H. injection H as <-.
  destruct (fold_ts_min2 l a) as [H1 H2]. rewrite <- E in H1, H2.
  split; [apply dropna_In; exact H1|].
  intros x Hx. apply H2, dropna_In. exact Hx.
Qed.

Lemma max_ts_spec (s : list (option Timestamp)) (t : Timestamp) :
  max_ts s = Some t ->
  In (Some t) s /\ forall x, In (Some x) s -> ts_le x t.
Proof.
  unfold max_ts. destruct (dropna s) as [|a l] eqn:E; [discriminate|].
  intros H. injection H as <-.
  destruct (fold_ts_max2 l a) as [H1 H2]. rewrite <- E in H1, H2.
  split; [apply dropna_In; exact H1|].
  intros x Hx. apply H2, dropna_In. exact Hx.
Qed.

Lemma minus_12_months_before (t : Timestamp) : ts_le (minus_12_months t) t.
Proof.
  unfold ts_le, ts_compare, minus_12_months. simpl.
  replace (year t - 1 ?= year t) with Lt; [simpl; discriminate|].
  symmetry. apply Z.compare_lt_iff. lia.
Qed.

Lemma date_of_mono (a b : Timestamp) :
  ts_le a b -> date_leb (date_of a) (date_of b) = true.
Proof.
  unfold date_leb. rewrite ts_leb_le.
  unfold ts_le, ts_compare, to_datetime_date, date_of. simpl.
  destruct (year a ?= year b); simpl; auto.
  destruct (month a ?= month b); simpl; auto.
  destruct (day a ?= day b); simpl; auto.
  intros _. discriminate.
Qed.

Lemma date_leb_ts (d1 d2 : Date) :
  date_leb d1 d2 = true ->
  ts_gtb (to_datetime_date d1) (to_datetime_date d2) = false.
Proof.
  unfold date_leb, ts_leb, ts_gtb.
  destruct (ts_compare _ _); congruence.
Qed.

Lemma Qle_bool_total (a b : Q) : Qle_bool a b = false -> (b <= a)%Q.
Proof.
  intros H. apply Qlt_le_weak, Qnot_le_lt. rewrite <- Qle_bool_iff. congruence.
Qed.

Lemma fold_num_min2 (qs : list Q) (q : Q) :
  In (fold_left num_min2 qs q) (q :: qs) /\
  forall x, In x (q :: qs) -> (fold_left num_min2 qs q <= x)%Q.
Proof.
  revert q. induction qs as [|y qs IH]; intros q; simpl.
  - split; [auto | intros x [<-|[]]; apply Qle_refl].
  - assert (Hm : num_min2 q y = q /\ (q <= y)%Q \/
                 num_min2 q y = y /\ (y <= q)%Q).
    { unfold num_min2. destruct (Qle_bool q y) eqn:E.
      - left. split; [reflexivity | apply Qle_bool_iff; exact E].
      - right. split; [reflexivity | apply Qle_bool_total; exact E]. }
    destruct (IH (num_min2 q y)) as [H1 H2].
    destruct Hm as [[E L]|[E L]]; rewrite E in *.
    + split.
      * destruct H1 as [H1|H1]; auto.
      * intros x [<-|[<-|Hx]].
        -- apply H2. left. reflexivity.
        -- apply (Qle_trans _ q); [apply H2; left; reflexivity | exact L].
        -- apply H2. right. exact Hx.
    + split.
      * destruct H1 as [H1|H1]; auto.
      * intros x [<-|[<-|Hx]].
        -- apply (Qle_trans _ y); [apply H2; left; reflexivity | exact L].
        -- apply H2. left. reflexivity.
        -- apply H2. right. exact Hx.
Qed.

Lemma fold_num_max2 (qs : list Q) (q : Q) :
  In (fold_left num_max2 qs q) (q :: qs) /\
  forall x, In x (q :: qs) -> (x <= fold_left num_max2 qs q)%Q.
Proof.
  revert q. induction qs as [|y qs IH]; intros q; simpl.
  - split; [auto | intros x [<-|[]]; apply Qle_refl].
  - assert (Hm : num_max2 q y = y /\ (q <= y)%Q \/
                 num_max2 q y = q /\ (y <= q)%Q).
    { unfold num_max2. destruct (Qle_bool q y) eqn:E.
      - left. split; [reflexivity | apply Qle_bool_iff; exact E].
      - right. split; [reflexivity | apply Qle_bool_total; exact E]. }
    destruct (IH (num_max2 q y)) as [H1 H2].
    destruct Hm as [[E L]|[E L]]; rewrite E in *.
    + split.
      * destruct H1 as [H1|H1]; auto.
      * intros x [<-|[<-|Hx]].
        -- apply (Qle_trans _ y); [exact L | apply H2; left; reflexivity].
        -- apply H2. left. reflexivity.
        -- apply H2. right. exact Hx.
    + split.
      * destruct H1 as [H1|H1]; auto.
      * intros x [<-|[<-|Hx]].
        -- apply H2. left. reflexivity.
        -- apply (Qle_trans _ q); [exact L | apply H2; left; reflexivity].
        -- apply H2. right. exact Hx.
Qed.

Lemma min_num_spec (s : list (option Q)) (a : Q) :
  min_num s = Some a ->
  In (Some a) s /\ forall x, In (Some x) s -> (a <= x)%Q.
Proof.
  unfold min_num. destruct (dropna s) as [|q l] eqn:E; [discriminate|].
  intros H. injection H as <-.
  destruct (fold_num_min2 l q) as [H1 H2]. rewrite <- E in H1, H2.
  split; [apply dropna_In; exact H1|].
  intros x Hx. apply H2, dropna_In. exact Hx.
Qed.

Lemma max_num_spec (s : list (option Q)) (b : Q) :
  max_num s = Some b ->
  In (Some b) s /\ forall x, In (Some x) s -> (x <= b)%Q.
Proof.
  unfold max_num. destruct (dropna s) as [|q l] eqn:E; [discriminate|].
  intros H. injection H as <-.
  destruct (fold_num_max2 l q) as [H1 H2]. rewrite <- E in H1, H2.
  split; [apply dropna_In; exact H1|].
  intros x Hx. apply H2, dropna_In. exact Hx.
Qed.

Lemma trunc_integer (q : Q) (z : Z) : (q == inject_Z z)%Q -> trunc q = z.
Proof.
  unfold Qeq, trunc, inject_Z. simpl. intros H.
  rewrite Z.mul_1_r in H. rewrite H. apply Z.quot_mul. discriminate.
Qed.

Lemma min_date_le_max_date (data : list Review) (mn mx : Timestamp) :
  min_date data = Some mn -> max_date data = Some mx -> ts_le mn mx.
Proof.
  intros Hmn Hmx.
  apply (proj2 (max_ts_spec _ _ Hmx)), (proj1 (min_ts_spec _ _ Hmn)).
Qed.

Lemma py_max_bounds (mn mx : Timestamp) :
  ts_le mn mx ->
  ts_le mn (py_max mn (minus_12_months mx)) /\
  ts_le (py_max mn (minus_12_months mx)) mx.
Proof.
  intros Hle. unfold py_max.
  destruct (ts_gtb (minus_12_months mx) mn) eqn:G; split.
  - apply ts_gtb_le. exact G.
  - apply minus_12_months_before.
  - apply ts_le_refl.
  - exact Hle.
Qed.

Lemma trunc_mono (a b : Q) : (a <= b)%Q -> trunc a <= trunc b.
Proof.
  unfold Qle, trunc. intros H.
  rewrite <- (Z.quot_mul_cancel_r (Qnum a) (Zpos (Qden a)) (Zpos (Qden b)))
    by discriminate.
  rewrite <- (Z.quot_mul_cancel_r (Qnum b) (Zpos (Qden b)) (Zpos (Qden a)))
    by discriminate.
  rewrite (Z.mul_comm (Zpos (Qden b)) (Zpos (Qden a))).
  apply Z.quot_le_mono; [reflexivity | exact H].
Qed.

(** The two date widgets accept their defaults. *)
Lemma default_inputs_dates (data : list Review) (mn mx : Timestamp) :
  ts_le mn mx ->
  default_inputs data mn mx
  = (rating_min <- py_int (min_num (map rating data)) ;;
     rating_max <- py_int (max_num (map rating data)) ;;
     rating_range <- slider rating_min rating_max (rating_min, rating_max) ;;
     ret {| start_date_input := date_of (py_max mn (minus_12_months mx));
            end_date_input := date_of mx;
            selected_platforms :=
              sorted (unique (dropna (map published_platform data)));
            selected_types := sorted (unique (dropna (map type data)));
            rating_range := rating_range |}).
Proof.
  intros Hle.
  destruct (py_max_bounds mn mx Hle) as [P1 P2].
  unfold default_inputs, date_input.
  rewrite (date_of_mono _ _ P1), (date_of_mono _ _ P2),
    (date_of_mono _ _ Hle), (date_of_mono _ _ (ts_le_refl mx)).
  simpl.
  destruct (min_num (map rating data)) as [a|]; simpl; [|reflexivity].
  destruct (max_num (map rating data)) as [b|]; simpl; [|reflexivity].
  unfold slider. destruct (trunc a <? trunc b); reflexivity.
Qed.

(** The value of the defaults when the ratings leave a range. *)
Lemma default_inputs_value (data : list Review) (mn mx : Timestamp)
  (a b : Q) :
  ts_le mn mx ->
  min_num (map rating data) = Some a ->
  max_num (map rating data) = Some b ->
  trunc a < trunc b ->
  default_inputs data mn mx
  = ([], inr {| start_date_input :=
                  date_of (py_max mn (minus_12_months mx));
                end_date_input := date_of mx;
                selected_platforms :=
                  sorted (unique (dropna (map published_platform data)));
                selected_types := sorted (unique (dropna (map type data)));
                rating_range := (trunc a, trunc b) |}).
Proof.
  intros Hle Ha Hb Hlt.
  rewrite (default_inputs_dates data mn mx Hle), Ha, Hb.
  unfold slider. simpl.
  rewrite (proj2 (Z.ltb_lt _ _) Hlt). reflexivity.
Qed.

(** Without a rating in the data, the defaults fail. *)
Lemma default_inputs_error (data : list Review) (mn mx : Timestamp) :
  ts_le mn mx ->
  dropna (map rating data) = [] ->
  default_inputs data mn mx = ([], inl "ValueError"%string).
Proof.
  intros Hle H.
  rewrite (default_inputs_dates data mn mx Hle).
  unfold min_num, max_num. rewrite H. reflexivity.
Qed.

(** When the smallest and the largest rating have the same whole part, the
    slider has no range and the defaults fail. *)
Lemma default_inputs_no_range (data : list Review) (mn mx : Timestamp)
  (a b : Q) :
  ts_le mn mx ->
  min_num (map rating data) = Some a ->
  max_num (map rating data) = Some b ->
  trunc b <= trunc a ->
  default_inputs data mn mx
  = ([], inl "StreamlitInvalidMinMaxError"%string).
Proof.
  intros Hle Ha Hb Hge.
  rewrite (default_inputs_dates data mn mx Hle), Ha, Hb.
  unfold slider. simpl.
  rewrite (proj2 (Z.ltb_ge _ _) Hge). reflexivity.
Qed.

(** What the defaults are, when there are any. *)
Lemma default_inputs_inv (data : list Review) (mn mx : Timestamp)
  (inp : Inputs) :
  ts_le mn mx ->
  outcome (default_inputs data mn mx) = inr inp ->
  exists a b,
    min_num (map rating data) = Some a /\
    max_num (map rating data) = Some b /\
    inp = {| start_date_input := date_of (py_max mn (minus_12_months mx));
             end_date_input := date_of mx;
             selected_platforms :=
               sorted (unique (dropna (map published_platform data)));
             selected_types := sorted (unique (dropna (map type data)));
             rating_range := (trunc a, trunc b) |}.
Proof.
  intros Hle H.
  destruct (dropna (map rating data)) as [|q qs] eqn:Er.
  { rewrite (default_inputs_error data mn mx Hle Er) in H. discriminate H. }
  exists (fold_left num_min2 qs q), (fold_left num_max2 qs q).
  assert (Ha : min_num (map rating data) = Some (fold_left num_min2 qs q))
    by (unfold min_num; rewrite Er; reflexivity).
  assert (Hb : max_num (map rating data) = Some (fold_left num_max2 qs q))
    by (unfold max_num; rewrite Er; reflexivity).
  destruct (Z.lt_ge_cases (trunc (fold_left num_min2 qs q))
                          (trunc (fold_left num_max2 qs q))) as [Hlt|Hge].
  - rewrite (default_inputs_value data mn mx _ _ Hle Ha Hb Hlt) in H.
    injection H as <-. auto.
  - rewrite (default_inputs_no_range data mn mx _ _ Hle Ha Hb Hge) in H.
    discriminate H.
Qed.

(** X11.  When the page is first loaded with data that has a date, the date
    widgets never refuse their defaults.  The defaults fail with
    [ValueError] if no row has a rating, and with
    [StreamlitInvalidMinMaxError] if the smallest and the largest rating
    have the same whole part, as when all ratings are equal; otherwise the
    defaults exist. *)
Theorem default_inputs_outcome (data : list Review) (mn mx : Timestamp) :
  min_date data = Some mn ->
  max_date data = Some mx ->
  (dropna (map rating data) = [] ->
   default_inputs data mn mx = ([], inl "ValueError"%string)) /\
  (forall a b,
     min_num (map rating data) = Some a ->
     max_num (map rating data) = Some b ->
     trunc a <= trunc b /\
     (trunc a = trunc b ->
      default_inputs data mn mx
      = ([], inl "StreamlitInvalidMinMaxError"%string)) /\
     (trunc a < trunc b ->
      default_inputs data mn mx
      = ([], inr {| start_date_input :=
                      date_of (py_max mn (minus_12_months mx));
                    end_date_input := date_of mx;
                    selected_platforms :=
                      sorted (unique (dropna (map published_platform data)));
                    selected_types :=
                      sorted (unique (dropna (map type data)));
                    rating_range := (trunc a, trunc b) |}))) /\
  outcome (default_inputs data mn mx) <> inl "StreamlitAPIException"%string.
Proof.
  intros Hmn Hmx.
  pose proof (min_date_le_max_date data mn mx Hmn Hmx) as Hle.
  split; [apply default_inputs_error; exact Hle|].
  split.
  - intros a b Ha Hb.
    split; [|split].
    + apply trunc_mono.
      apply (proj2 (max_num_spec _ _ Hb)), (proj1 (min_num_spec _ _ Ha)).
    + intros E. apply (default_inputs_no_range data mn mx a b Hle Ha Hb). lia.
    + apply default_inputs_value; assumption.
  - rewrite (default_inputs_dates data mn mx Hle).
    destruct (min_num (map rating data)) as [a|]; simpl; [|discriminate].
    destruct (max_num (map rating data)) as [b|]; simpl; [|discriminate].
    unfold slider. destruct (trunc a <? trunc b); simpl; discriminate.
Qed.

Lemma default_inputs_outcome_witness :
  min_date fives_data = Some (mkTimestamp 2024 8 1 0) /\
  default_inputs fives_data (mkTimestamp 2024 8 1 0)
    (mkTimestamp 2024 8 2 0)
  = ([], inl "StreamlitInvalidMinMaxError"%string).
Proof.
  split.
  - reflexivity.
  - refine (proj1 (proj2 (proj1 (proj2
             (default_inputs_outcome fives_data (mkTimestamp 2024 8 1 0)
                (mkTimestamp 2024 8 2 0) eq_refl eq_refl))
             5%Q 5%Q eq_refl eq_refl)) eq_refl).
Defined.

Lemma unique_In (l : list string) (y : string) : In y (unique l) <-> In y l.
Proof.
  induction l as [|x t IH]; simpl; [tauto|].
  rewrite filter_In, IH, negb_true_iff.
  destruct (String.eqb_spec x y) as [->|Hne].
  - tauto.
  - intuition congruence.
Qed.

Lemma unique_NoDup (l : list string) : NoDup (unique l).
Proof.
  induction l as [|x t IH]; simpl; constructor.
  - rewrite filter_In, String.eqb_refl. simpl. intros [_ H]. discriminate H.
  - apply NoDup_filter. exact IH.
Qed.

Lemma insert_str_perm (x : string) (l : list string) :
  Permutation (x :: l) (insert_str x l).
Proof.
  induction l as [|h t IH]; simpl; [reflexivity|].
  destruct (String.leb x h); [reflexivity|].
  rewrite perm_swap. constructor. exact IH.
Qed.

Lemma sorted_perm (l : list string) : Permutation l (sorted l).
Proof.
  induction l as [|x l IH]; simpl; [constructor|].
  rewrite <- insert_str_perm. constructor. exact IH.
Qed.

Lemma insert_str_Sorted (x : string) (l : list string) :
  Sorted (fun a b => String.leb a b = true) l ->
  Sorted (fun a b => String.leb a b = true) (insert_str x l).
Proof.
  induction 1 as [|h t Hs IH Hhd]; simpl.
  - repeat constructor.
  - destruct (String.leb x h) eqn:E.
    + repeat constructor; assumption.
    + assert (Hhx : String.leb h x = true).
      { destruct (String.leb_total x h) as [H|H]; [congruence | exact H]. }
      constructor; [exact IH|].
      destruct t as [|t0 t]; simpl.
      * constructor. exact Hhx.
      * destruct (String.leb x t0); constructor; [exact Hhx|].
        inversion Hhd. assumption.
Qed.

Lemma sorted_Sorted (l : list string) :
  Sorted (fun a b => String.leb a b = true) (sorted l).
Proof.
  induction l as [|x l IH]; simpl; [constructor|].
  apply insert_str_Sorted. exact IH.
Qed.

Lemma options_spec {R : Type} (col : R -> option string) (data : list R) :
  let options := sorted (unique (dropna (map col data))) in
  (forall p, In p options <-> exists r, In r data /\ col r = Some p) /\
  NoDup options /\
  Sorted (fun a b => String.leb a b = true) options.
Proof.
  intros options. subst options. split; [|split].
  - intros p. split.
    + intros H.
      apply (Permutation_in _ (Permutation_sym (sorted_perm _))) in H.
      apply unique_In, dropna_In, in_map_iff in H.
      destruct H as [r [E Hr]]. eauto.
    + intros [r [Hr E]].
      apply (Permutation_in _ (sorted_perm _)).
      apply unique_In, dropna_In, in_map_iff. eauto.
  - apply (Permutation_NoDup (sorted_perm _)), unique_NoDup.
  - apply sorted_Sorted.
Qed.

(** X12.  When the page is first loaded with data that has a date, the
    default start date is not after the default end date: the dates are not
    swapped and no caption about a swap is shown. *)
Theorem first_load_no_swap (data : list Review) (mn mx : Timestamp)
  (inp : Inputs) :
  min_date data = Some mn ->
  max_date data = Some mx ->
  outcome (default_inputs data mn mx) = inr inp ->
  date_leb (start_date_input inp) (end_date_input inp) = true /\
  swap_dates (to_datetime_date (start_date_input inp))
             (to_datetime_date (end_date_input inp))
  = ([], inr (to_datetime_date (start_date_input inp),
              to_datetime_date (end_date_input inp))) /\
  rendered (filter_reviews data inp) = [].
Proof.
  intros Hmn Hmx H.
  pose proof (min_date_le_max_date data mn mx Hmn Hmx) as Hle.
  destruct (default_inputs_inv data mn mx inp Hle H) as [a [b [_ [_ ->]]]].
  cbn [start_date_input end_date_input].
  pose proof (date_of_mono _ _ (proj2 (py_max_bounds mn mx Hle))) as B.
  split; [exact B|].
  unfold filter_reviews, swap_dates.
  cbn [start_date_input end_date_input].
  rewrite (date_leb_ts _ _ B). split; reflexivity.
Qed.

Lemma first_load_no_swap_witness :
  outcome (default_inputs scenario_data (mkTimestamp 2024 1 10 0)
             (mkTimestamp 2024 3 12 0))
  = inr scenario_defaults /\
  rendered (filter_reviews scenario_data scenario_defaults) = [].
Proof.
  split.
  - reflexivity.
  - apply (first_load_no_swap scenario_data (mkTimestamp 2024 1 10 0)
             (mkTimestamp 2024 3 12 0));
      reflexivity.
Defined.

(** X13.  When the page is first loaded, the platforms selected are the
    platforms of the data, each once, in ascending order, and likewise the
    types: a row that has a platform and a type passes both tests. *)
Theorem first_load_selects_all (data : list Review) (mn mx : Timestamp)
  (inp : Inputs) :
  min_date data = Some mn ->
  max_date data = Some mx ->
  outcome (default_inputs data mn mx) = inr inp ->
  (forall p, In p (selected_platforms inp) <->
             exists r, In r data /\ published_platform r = Some p) /\
  (forall p, In p (selected_types inp) <->
             exists r, In r data /\ type r = Some p) /\
  NoDup (selected_platforms inp) /\
  NoDup (selected_types inp) /\
  Sorted (fun a b => String.leb a b = true) (selected_platforms inp) /\
  Sorted (fun a b => String.leb a b = true) (selected_types inp) /\
  (forall r p y, In r data -> published_platform r = Some p ->
                 type r = Some y ->
                 platform_selected (selected_platforms inp) r /\
                 type_selected (selected_types inp) r).
Proof.
  intros Hmn Hmx H.
  pose proof (min_date_le_max_date data mn mx Hmn Hmx) as Hle.
  destruct (default_inputs_inv data mn mx inp Hle H) as [a [b [_ [_ ->]]]].
  cbn [selected_platforms selected_types].
  destruct (options_spec published_platform data) as [P1 [P2 P3]].
  destruct (options_spec type data) as [T1 [T2 T3]].
  repeat split; try assumption; try apply P1; try apply T1.
  - exists p. split; [assumption|]. apply P1. eauto.
  - exists y. split; [assumption|]. apply T1. eauto.
Qed.

Lemma first_load_selects_all_witness :
  outcome (default_inputs scenario_data (mkTimestamp 2024 1 10 0)
             (mkTimestamp 2024 3 12 0))
  = inr scenario_defaults /\
  NoDup (selected_platforms scenario_defaults).
Proof.
  split.
  - reflexivity.
  - apply (first_load_selects_all scenario_data (mkTimestamp 2024 1 10 0)
             (mkTimestamp 2024 3 12 0) scenario_defaults);
      reflexivity.
Defined.

Lemma after_midnight (t : Timestamp) :
  0 < nanos t -> ~ ts_le t (to_datetime_date (date_of t)).
Proof.
  intros Hpos Hle. apply Hle.
  unfold ts_compare, to_datetime_date, date_of. simpl.
  rewrite !Z.compare_refl. simpl. apply Z.compare_gt_iff. exact Hpos.
Qed.

(** X14.  When the page is first loaded, the rows published on the latest
    day of the data later than midnight are not in the filtered subset: the
    default end date is the midnight that begins that day. *)
Theorem first_load_drops_latest_day (data : list Review) (inp : Inputs)
  (mn latest t : Timestamp) (r : Review) :
  min_date data = Some mn ->
  max_date data = Some latest ->
  outcome (default_inputs data mn latest) = inr inp ->
  published_date r = Some t ->
  date_of t = date_of latest ->
  0 < nanos t ->
  end_date_input inp = date_of latest /\
  ~ In r (filtered data
            (to_datetime_date (start_date_input inp))
            (to_datetime_date (end_date_input inp))
            (selected_platforms inp) (selected_types inp)
            (rating_range inp)).
Proof.
  intros Hmn Hmx H Ht Hday Hpos.
  pose proof (min_date_le_max_date data mn latest Hmn Hmx) as Hle.
  destruct (default_inputs_inv data mn latest inp Hle H)
    as [a [b [_ [_ ->]]]].
  cbn [start_date_input end_date_input selected_platforms selected_types
       rating_range].
  split; [reflexivity|].
  intros Hin. apply filtered_In in Hin.
  destruct Hin as [_ [[t' [E [_ Hl]]] _]].
  rewrite Ht in E. injection E as <-.
  rewrite <- Hday in Hl. exact (after_midnight t Hpos Hl).
Qed.

Lemma first_load_drops_latest_day_witness :
  outcome (default_inputs noon_data (mkTimestamp 2024 6 1 0)
             (mkTimestamp 2024 12 31 43200000000000))
  = inr noon_defaults /\
  ~ In row_noon
      (filtered noon_data
         (to_datetime_date (start_date_input noon_defaults))
         (to_datetime_date (end_date_input noon_defaults))
         (selected_platforms noon_defaults) (selected_types noon_defaults)
         (rating_range noon_defaults)).
Proof.
  split.
  - reflexivity.
  - apply (first_load_drops_latest_day noon_data noon_defaults
             (mkTimestamp 2024 6 1 0)
             (mkTimestamp 2024 12 31 43200000000000)
             (mkTimestamp 2024 12 31 43200000000000) row_noon);
      reflexivity.
Defined.

(** X15.  When the page is first loaded and every rating of the data is a
    whole number, the default rating range is the smallest and the largest
    rating, and every row that has a rating passes the rating test. *)
Theorem first_load_rating_range (data : list Review) (mn mx : Timestamp)
  (inp : Inputs) :
  min_date data = Some mn ->
  max_date data = Some mx ->
  outcome (default_inputs data mn mx) = inr inp ->
  (forall r q, In r data -> rating r = Some q ->
               exists z, (q == inject_Z z)%Q) ->
  (exists lo hi,
     min_num (map rating data) = Some lo /\
     max_num (map rating data) = Some hi /\
     (inject_Z (fst (rating_range inp)) == lo)%Q /\
     (inject_Z (snd (rating_range inp)) == hi)%Q) /\
  (forall r q, In r data -> rating r = Some q ->
               rating_in_range (rating_range inp) r).
Proof.
  intros Hmn Hmx H Hint.
  pose proof (min_date_le_max_date data mn mx Hmn Hmx) as Hle.
  destruct (default_inputs_inv data mn mx inp Hle H) as [a [b [Ha [Hb ->]]]].
  cbn [rating_range fst snd].
  destruct (min_num_spec _ _ Ha) as [Ha1 Ha2].
  destruct (max_num_spec _ _ Hb) as [Hb1 Hb2].
  assert (Hza : (inject_Z (trunc a) == a)%Q).
  { apply in_map_iff in Ha1. destruct Ha1 as [r [E Hr]].
    destruct (Hint r a Hr E) as [z Hz].
    rewrite (trunc_integer a z Hz). symmetry. exact Hz. }
  assert (Hzb : (inject_Z (trunc b) == b)%Q).
  { apply in_map_iff in Hb1. destruct Hb1 as [r [E Hr]].
    destruct (Hint r b Hr E) as [z Hz].
    rewrite (trunc_integer b z Hz). symmetry. exact Hz. }
  split.
  - exists a, b. auto.
  - intros r q Hr E. exists q. split; [exact E|].
    assert (Hq : In (Some q) (map rating data)).
    { apply in_map_iff. eauto. }
    split.
    + rewrite Hza. apply Ha2. exact Hq.
    + rewrite Hzb. apply Hb2. exact Hq.
Qed.

Lemma first_load_rating_range_witness :
  outcome (default_inputs noon_data (mkTimestamp 2024 6 1 0)
             (mkTimestamp 2024 12 31 43200000000000))
  = inr noon_defaults /\
  rating_in_range (rating_range noon_defaults) row_noon.
Proof.
  split.
  - reflexivity.
  - refine (proj2 (first_load_rating_range noon_data
                     (mkTimestamp 2024 6 1 0)
                     (mkTimestamp 2024 12 31 43200000000000)
                     noon_defaults eq_refl eq_refl eq_refl _)
              row_noon 4%Q _ eq_refl).
    + intros r q [<- | [<- | []]] E; injection E as <-.
      * exists 3. reflexivity.
      * exists 4. reflexivity.
    + right. left. reflexivity.
Defined.

(** ** The loader and the filter together *)

(** X16.  A row of the file whose date cell or rating cell is absent or
    cannot be read is loaded like the others, but no setting of the filter
    shows it. *)
Theorem unreadable_row_never_shown (pd : string -> option Timestamp)
  (pn : string -> option Q) (rows : list RawReview) (raw : RawReview)
  (s e : Timestamp) (ps ts : list string) (rr : Z * Z) :
  In raw rows ->
  to_datetime_utc pd (raw_published_date raw) = None \/
  to_numeric pn (raw_rating raw) = None ->
  In (normalize pd pn raw) (map (normalize pd pn) rows) /\
  ~ In (normalize pd pn raw)
      (filtered (map (normalize pd pn) rows) s e ps ts rr).
Proof.
  intros Hin Hbad. split; [apply in_map; exact Hin|].
  intros Hf. destruct Hbad as [Hd | Hr].
  - apply filtered_date_present in Hf. apply Hf.
    unfold normalize. simpl. rewrite Hd. reflexivity.
  - apply filtered_rating_present in Hf. apply Hf.
    unfold normalize. simpl. exact Hr.
Qed.

Lemma unreadable_row_never_shown_witness :
  In raw_bad_date [raw_bad_date] /\
  ~ In (normalize no_date no_number raw_bad_date)
      (filtered (map (normalize no_date no_number) [raw_bad_date])
         jan_1 dec_31 ["Unknown"%string] ["Unknown"%string] (1, 5)).
Proof.
  split.
  - left. reflexivity.
  - apply (unreadable_row_never_shown no_date no_number [raw_bad_date]
             raw_bad_date jan_1 dec_31 ["Unknown"%string]
             ["Unknown"%string] (1, 5)).
    + left. reflexivity.
    + left. reflexivity.
Defined.

(** ** The texts for the keyword images *)

Lemma append_assoc (a b c : string) :
  ((a ++ b) ++ c)%string = (a ++ (b ++ c))%string.
Proof.
  induction a as [|ch a IH]; simpl; [reflexivity|]. rewrite IH. reflexivity.
Qed.

Lemma append_nil_r (a : string) : (a ++ "")%string = a.
Proof.
  induction a as [|ch a IH]; simpl; [reflexivity|]. rewrite IH. reflexivity.
Qed.

Lemma join_occurs (sep t : string) (l : list string) :
  In t l -> occurs_in t (join sep l).
Proof.
  unfold join, occurs_in.
  induction l as [|x l IH]; [intros []|].
  intros [-> | Hin].
  - destruct l as [|y l].
    + exists ""%string, ""%string. simpl. rewrite append_nil_r. reflexivity.
    + exists ""%string, (sep ++ String.concat sep (y :: l))%string.
      reflexivity.
  - destruct l as [|y l]; [destruct Hin|].
    destruct (IH Hin) as [before [after E]].
    exists (x ++ sep ++ before)%string, after.
    change (String.concat sep (x :: y :: l))
      with (x ++ sep ++ String.concat sep (y :: l))%string.
    rewrite E, !append_assoc. reflexivity.
Qed.

(** X17.  The text of every row of the subset that has one of the given
    ratings occurs in the keyword text. *)
Theorem keyword_text_contains (sub : list Review) (values : list Q)
  (r : Review) (q : Q) (t : string) :
  In r sub ->
  rating r = Some q ->
  existsb (Qeq_bool q) values = true ->
  text r = Some t ->
  occurs_in t (keyword_text sub values).
Proof.
  intros Hin Hq Hv Ht. unfold keyword_text.
  apply join_occurs, dropna_In, in_map_iff.
  exists r. split; [exact Ht|].
  rewrite select_isin_rating. apply filter_In.
  split; [exact Hin|]. rewrite Hq. exact Hv.
Qed.

Lemma keyword_text_contains_witness :
  In row_praise [row_5_web; row_praise] /\
  occurs_in "great crew" (positive_text [row_5_web; row_praise]).
Proof.
  split.
  - right. left. reflexivity.
  - apply (keyword_text_contains [row_5_web; row_praise] [4%Q; 5%Q]
             row_praise 5%Q "great crew").
    + right. left. reflexivity.
    + reflexivity.
    + reflexivity.
    + reflexivity.
Defined.

(** X18.  When no row of the subset has both a text and one of the given
    ratings, as in the empty subset, the word cloud is made from the text
    "No data"; it is never made from the empty text. *)
Theorem wordcloud_input_no_data (sub : list Review) (values : list Q) :
  (forall r q t, In r sub -> rating r = Some q -> text r = Some t ->
                 existsb (Qeq_bool q) values = false) ->
  keyword_text sub values = ""%string /\
  wordcloud_input (keyword_text sub values) = "No data"%string /\
  (forall t, wordcloud_input t <> ""%string).
Proof.
  intros H.
  assert (E : keyword_text sub values = ""%string).
  { unfold keyword_text. rewrite select_isin_rating.
    replace (dropna (map text (List.filter
               (fun r => match rating r with
                         | Some v => existsb (Qeq_bool v) values
                         | None => false
                         end) sub))) with (@nil string); [reflexivity|].
    induction sub as [|r sub IH]; simpl; [reflexivity|].
    assert (IH' := IH (fun r' q t Hr => H r' q t (or_intror Hr))).
    destruct (rating r) as [q|] eqn:Eq; [|exact IH'].
    destruct (existsb (Qeq_bool q) values) eqn:Ev; [|exact IH'].
    simpl. destruct (text r) as [t|] eqn:Et; [|exact IH'].
    rewrite (H r q t (or_introl eq_refl) Eq Et) in Ev. discriminate Ev. }
  split; [exact E|]. split; [rewrite E; reflexivity|].
  intros t. destruct t; simpl; discriminate.
Qed.

Lemma wordcloud_input_no_data_witness :
  wordcloud_input (negative_text [row_5_web; row_praise])
  = "No data"%string.
Proof.
  apply (wordcloud_input_no_data [row_5_web; row_praise] [1%Q; 2%Q]).
  intros r q t [<- | [<- | []]] Eq Et.
  - discriminate Et.
  - injection Eq as <-. reflexivity.
Defined.
